(** * Aerodynamics visualisations: a shallow embedding of the simulators

    The JavaScript sources under [js/] define six canvas simulators
    (Bernoulli duct, four forces, airfoil, control surfaces, flight phases,
    intro).  This development embeds their physics and their object
    life cycle and proves the properties listed for them.

    Number model.  A JavaScript number is modelled by an exact rational
    ([Q]); equality of numbers is [Qeq], written [==].  Rounding of IEEE
    doubles, [NaN] and the infinities are outside the model, so a
    theorem that depends on a division carries the hypothesis that makes
    the divisor non-zero (positive canvas size). *)

From Stdlib Require Import QArith Qabs Qminmax Qround Qfield ZArith Lia Lqa.
From Stdlib Require Import Bool List String Ascii.
Import ListNotations.

Local Open Scope string_scope.
Local Open Scope Q_scope.

(** ** Numbers and truthiness *)

Module Js.

(** [x < y] on numbers, as a boolean. *)
Definition ltb (x y : Q) : bool := negb (Qle_bool y x).
Definition leb (x y : Q) : bool := Qle_bool x y.

(** [Math.max], [Math.min], [Math.pow(x, 2)]. *)
Definition max (x y : Q) : Q := if leb x y then y else x.
Definition min (x y : Q) : Q := if leb x y then x else y.
Definition pow2 (x : Q) : Q := x * x.

(** [n || d] for a numeric option that may be absent: [undefined] and
    [0] are falsy, every other number is truthy. *)
Definition or_num (n : option Q) (d : Q) : Q :=
  match n with
  | Some q => if Qeq_bool q 0 then d else q
  | None => d
  end.

(** [s || d] for a string option: [undefined] and the empty string are
    falsy. *)
Definition or_str (s : option string) (d : string) : string :=
  match s with
  | Some EmptyString => d
  | Some t => t
  | None => d
  end.

(** [a % b] on numbers: the remainder has the sign of [a], the quotient
    being truncated towards zero. *)
Definition truncate (q : Q) : Z :=
  if Qle_bool 0 q then Qfloor q else Qceiling q.
Definition rem (a b : Q) : Q := a - b * inject_Z (truncate (a / b)).

(** [Math.round(x)]: the integer nearest to [x], halves rounded up. *)
Definition round (x : Q) : Z := Qfloor (x + 0.5).

(** [Math.PI]: the double nearest to pi, which is this rational. *)
Definition PI : Q := 884279719003555 # 281474976710656.

End Js.


(** ** The host page: document, window, clock, random source, console

    Everything a simulator reads from or writes to its environment.  The
    environment [env] is fixed for a run; the [world] records what the
    run has consumed and produced so far. *)

Module Host.

Record canvas := { canvas_width : Q; canvas_height : Q }.

Record env := {
  getElementById : string -> option canvas;   (* [null] as [None] *)
  devicePixelRatio : option Q;                (* [undefined] as [None] *)
  performance_now : nat -> Q;                 (* k-th reading of the clock *)
  Math_random : nat -> Q                      (* k-th draw *)
}.

Record world := {
  clock_reads : nat;
  random_draws : nat;
  console_errors : list string;
  frames_requested : nat;
  frames_cancelled : nat;
  repaints : nat
}.

Definition boot : world :=
  {| clock_reads := 0; random_draws := 0; console_errors := [];
     frames_requested := 0; frames_cancelled := 0; repaints := 0 |}.

(** [window.devicePixelRatio || 1]. *)
Definition pixelRatio (e : env) : Q := Js.or_num (devicePixelRatio e) 1.

(** A call either returns or throws a [TypeError]; the object and the
    world keep whatever was assigned before the throw. *)
Inductive outcome (A : Type) : Type :=
| Returned (a : A)
| Thrown.
Arguments Returned {A} a.
Arguments Thrown {A}.

Definition M (S A : Type) : Type :=
  env -> S -> world -> outcome A * S * world.

Section Ops.
Context {S : Type}.

Definition ret {A} (a : A) : M S A := fun _ s w => (Returned a, s, w).

Definition bind {A B} (m : M S A) (k : A -> M S B) : M S B :=
  fun e s w =>
    match m e s w with
    | (Returned a, s', w') => k a e s' w'
    | (Thrown, s', w') => (Thrown, s', w')
    end.

Definition throw {A} : M S A := fun _ s w => (Thrown, s, w).
Definition ask : M S env := fun e s w => (Returned e, s, w).
Definition get : M S S := fun _ s w => (Returned s, s, w).
Definition put (s : S) : M S unit := fun _ _ w => (Returned tt, s, w).
Definition modify (f : S -> S) : M S unit :=
  fun _ s w => (Returned tt, f s, w).

(** [performance.now()]. *)
Definition now : M S Q :=
  fun e s w =>
    (Returned (performance_now e (clock_reads w)), s,
     {| clock_reads := Datatypes.S (clock_reads w);
        random_draws := random_draws w;
        console_errors := console_errors w;
        frames_requested := frames_requested w;
        frames_cancelled := frames_cancelled w;
        repaints := repaints w |}).

(** [Math.random()]. *)
Definition random : M S Q :=
  fun e s w =>
    (Returned (Math_random e (random_draws w)), s,
     {| clock_reads := clock_reads w;
        random_draws := Datatypes.S (random_draws w);
        console_errors := console_errors w;
        frames_requested := frames_requested w;
        frames_cancelled := frames_cancelled w;
        repaints := repaints w |}).

(** [console.error(msg)]. *)
Definition console_error (msg : string) : M S unit :=
  fun _ s w =>
    (Returned tt, s,
     {| clock_reads := clock_reads w;
        random_draws := random_draws w;
        console_errors := console_errors w ++ [msg];
        frames_requested := frames_requested w;
        frames_cancelled := frames_cancelled w;
        repaints := repaints w |}).

(** [requestAnimationFrame(cb)]: the handle is a positive integer. *)
Definition requestAnimationFrame : M S nat :=
  fun _ s w =>
    (Returned (Datatypes.S (frames_requested w)), s,
     {| clock_reads := clock_reads w;
        random_draws := random_draws w;
        console_errors := console_errors w;
        frames_requested := Datatypes.S (frames_requested w);
        frames_cancelled := frames_cancelled w;
        repaints := repaints w |}).

(** [cancelAnimationFrame(handle)]. *)
Definition cancelAnimationFrame (handle : nat) : M S unit :=
  fun _ s w =>
    (Returned tt, s,
     {| clock_reads := clock_reads w;
        random_draws := random_draws w;
        console_errors := console_errors w;
        frames_requested := frames_requested w;
        frames_cancelled := Datatypes.S (frames_cancelled w);
        repaints := repaints w |}).

(** One complete repaint of the canvas through its 2D context.  The
    pixels are not modelled; the count of repaints is. *)
Definition paint : M S unit :=
  fun _ s w =>
    (Returned tt, s,
     {| clock_reads := clock_reads w;
        random_draws := random_draws w;
        console_errors := console_errors w;
        frames_requested := frames_requested w;
        frames_cancelled := frames_cancelled w;
        repaints := Datatypes.S (repaints w) |}).

(** [list.map] with an effectful body, left to right. *)
Fixpoint mapM {A B} (f : A -> M S B) (l : list A) : M S (list B) :=
  match l with
  | [] => ret []
  | a :: l' =>
      bind (f a) (fun b => bind (mapM f l') (fun bs => ret (b :: bs)))
  end.

(** [for (i = 0; i < n; i++) acc.push(body)]. *)
Fixpoint repeatM {A} (n : nat) (body : M S A) : M S (list A) :=
  match n with
  | O => ret []
  | Datatypes.S n' =>
      bind body (fun a => bind (repeatM n' body) (fun l => ret (a :: l)))
  end.

End Ops.

(** The second world differs from the first at most in the number of
    random draws. *)
Definition onlyRandom (w w' : world) : Prop :=
  clock_reads w' = clock_reads w /\
  console_errors w' = console_errors w /\
  frames_requested w' = frames_requested w /\
  frames_cancelled w' = frames_cancelled w /\
  repaints w' = repaints w.

(** Projections of a finished run. *)
Definition threw {A S} (r : outcome A * S * world) : bool :=
  match r with (Thrown, _, _) => true | _ => false end.
Definition this_after {A S} (r : outcome A * S * world) : S := snd (fst r).
Definition world_after {A S} (r : outcome A * S * world) : world := snd r.

(** The message every constructor logs for a missing canvas. *)
Definition dquote : string := String (ascii_of_nat 34) EmptyString.
Definition notFound (canvasId : string) : string :=
  ("Canvas with id " ++ dquote ++ canvasId ++ dquote ++ " not found")%string.

(** What a constructor leaves in the world when the canvas is missing:
  one more line on the console, nothing else. *)
Definition logged (canvasId : string) (w : world) : world :=
{| clock_reads := clock_reads w;
   random_draws := random_draws w;
   console_errors := console_errors w ++ [notFound canvasId];
   frames_requested := frames_requested w;
   frames_cancelled := frames_cancelled w;
   repaints := repaints w |}.

End Host.

Declare Scope js_scope.
Delimit Scope js_scope with js.
Notation "x <- m ;; k" := (Host.bind m (fun x => k))
  (at level 61, m at next level, right associativity) : js_scope.
Notation "m ;; k" := (Host.bind m (fun _ => k))
  (at level 61, right associativity) : js_scope.
Local Open Scope js_scope.

(** ** Bernoulli flow simulator (js/visualizations/bernoulli.js) *)

Module Bernoulli.
Import Host.

Record particle := {
  x : Q; y : Q; baseY : Q; speed : Q; size : Q; opacity : Q
}.

(** The properties of an object whose constructor ran to its end. *)
Record fields := {
  width : Q;
  height : Q;
  AIR_DENSITY : Q;
  ATMOSPHERIC_PRESSURE : Q;
  baseVelocity : Q;
  particleCount : Q;
  tubeTop : Q;
  tubeBottom : Q;
  throatTop : Q;
  throatBottom : Q;
  throatStart : Q;
  throatEnd : Q;
  isRunning : bool;
  animationFrame : option nat;
  particles : list particle;
  lastTime : Q
}.

(** The properties that can exist on an object whose constructor returned
    at the missing-canvas guard: [canvas] is [null], [ctx], [width] and the
    rest are [undefined], and only the assignments of [setVelocity],
    [start], [stop] and [destroy] can add one.  [destroy] assigns the
    empty array to [particles]; nothing else assigns it here. *)
Record bare := {
  b_baseVelocity : option Q;
  b_isRunning : option bool;
  b_lastTime : option Q;
  b_animationFrame : option nat;
  b_particles_emptied : bool
}.

Inductive obj :=
| Live (f : fields)
| Bare (b : bare).

Definition fresh : obj :=
  Bare {| b_baseVelocity := None; b_isRunning := None; b_lastTime := None;
          b_animationFrame := None; b_particles_emptied := false |}.

Record options := {
  opt_baseVelocity : option Q;
  opt_particleCount : option Q
}.

(** The result of [getTubeHeightAt]. *)
Record span := { top : Q; bottom : Q }.

(** *** Property reads and writes on either shape *)

(** Truthiness of [this.isRunning]. *)
Definition running (o : obj) : bool :=
  match o with
  | Live f => isRunning f
  | Bare b => match b_isRunning b with Some true => true | _ => false end
  end.

Definition set_isRunning (v : bool) (o : obj) : obj :=
  match o with
  | Live f =>
      Live {| width := width f; height := height f;
              AIR_DENSITY := AIR_DENSITY f;
              ATMOSPHERIC_PRESSURE := ATMOSPHERIC_PRESSURE f;
              baseVelocity := baseVelocity f;
              particleCount := particleCount f;
              tubeTop := tubeTop f; tubeBottom := tubeBottom f;
              throatTop := throatTop f; throatBottom := throatBottom f;
              throatStart := throatStart f; throatEnd := throatEnd f;
              isRunning := v; animationFrame := animationFrame f;
              particles := particles f; lastTime := lastTime f |}
  | Bare b =>
      Bare {| b_baseVelocity := b_baseVelocity b; b_isRunning := Some v;
              b_lastTime := b_lastTime b;
              b_animationFrame := b_animationFrame b;
              b_particles_emptied := b_particles_emptied b |}
  end.

Definition set_baseVelocity (v : Q) (o : obj) : obj :=
  match o with
  | Live f =>
      Live {| width := width f; height := height f;
              AIR_DENSITY := AIR_DENSITY f;
              ATMOSPHERIC_PRESSURE := ATMOSPHERIC_PRESSURE f;
              baseVelocity := v;
              particleCount := particleCount f;
              tubeTop := tubeTop f; tubeBottom := tubeBottom f;
              throatTop := throatTop f; throatBottom := throatBottom f;
              throatStart := throatStart f; throatEnd := throatEnd f;
              isRunning := isRunning f; animationFrame := animationFrame f;
              particles := particles f; lastTime := lastTime f |}
  | Bare b =>
      Bare {| b_baseVelocity := Some v; b_isRunning := b_isRunning b;
              b_lastTime := b_lastTime b;
              b_animationFrame := b_animationFrame b;
              b_particles_emptied := b_particles_emptied b |}
  end.

Definition set_lastTime (t : Q) (o : obj) : obj :=
  match o with
  | Live f =>
      Live {| width := width f; height := height f;
              AIR_DENSITY := AIR_DENSITY f;
              ATMOSPHERIC_PRESSURE := ATMOSPHERIC_PRESSURE f;
              baseVelocity := baseVelocity f;
              particleCount := particleCount f;
              tubeTop := tubeTop f; tubeBottom := tubeBottom f;
              throatTop := throatTop f; throatBottom := throatBottom f;
              throatStart := throatStart f; throatEnd := throatEnd f;
              isRunning := isRunning f; animationFrame := animationFrame f;
              particles := particles f; lastTime := t |}
  | Bare b =>
      Bare {| b_baseVelocity := b_baseVelocity b;
              b_isRunning := b_isRunning b;
              b_lastTime := Some t;
              b_animationFrame := b_animationFrame b;
              b_particles_emptied := b_particles_emptied b |}
  end.

(** [this.lastTime] as read by [animate].  Without the property the
    difference is not a number; [update] reads [deltaTime] only inside its
    loop over particles, which an object without [lastTime] never enters
    (it has no particles or the empty array), so 0 stands for the value
    that is never read. *)
Definition get_lastTime (o : obj) : Q :=
  match o with
  | Live f => lastTime f
  | Bare b => match b_lastTime b with Some t => t | None => 0 end
  end.

Definition get_animationFrame (o : obj) : option nat :=
  match o with
  | Live f => animationFrame f
  | Bare b => b_animationFrame b
  end.

Definition set_animationFrame (h : nat) (o : obj) : obj :=
  match o with
  | Live f =>
      Live {| width := width f; height := height f;
              AIR_DENSITY := AIR_DENSITY f;
              ATMOSPHERIC_PRESSURE := ATMOSPHERIC_PRESSURE f;
              baseVelocity := baseVelocity f;
              particleCount := particleCount f;
              tubeTop := tubeTop f; tubeBottom := tubeBottom f;
              throatTop := throatTop f; throatBottom := throatBottom f;
              throatStart := throatStart f; throatEnd := throatEnd f;
              isRunning := isRunning f; animationFrame := Some h;
              particles := particles f; lastTime := lastTime f |}
  | Bare b =>
      Bare {| b_baseVelocity := b_baseVelocity b;
              b_isRunning := b_isRunning b;
              b_lastTime := b_lastTime b;
              b_animationFrame := Some h;
              b_particles_emptied := b_particles_emptied b |}
  end.

Definition set_particles (ps : list particle) (f : fields) : fields :=
  {| width := width f; height := height f;
     AIR_DENSITY := AIR_DENSITY f;
     ATMOSPHERIC_PRESSURE := ATMOSPHERIC_PRESSURE f;
     baseVelocity := baseVelocity f;
     particleCount := particleCount f;
     tubeTop := tubeTop f; tubeBottom := tubeBottom f;
     throatTop := throatTop f; throatBottom := throatBottom f;
     throatStart := throatStart f; throatEnd := throatEnd f;
     isRunning := isRunning f; animationFrame := animationFrame f;
     particles := ps; lastTime := lastTime f |}.

(** [this.particles = []]. *)
Definition empty_particles (o : obj) : obj :=
  match o with
  | Live f => Live (set_particles [] f)
  | Bare b =>
      Bare {| b_baseVelocity := b_baseVelocity b;
              b_isRunning := b_isRunning b;
              b_lastTime := b_lastTime b;
              b_animationFrame := b_animationFrame b;
              b_particles_emptied := true |}
  end.

(** *** Duct geometry and flow field *)

Definition pixelWidth (e : env) (f : fields) : Q := width f / pixelRatio e.
Definition pixelHeight (e : env) (f : fields) : Q := height f / pixelRatio e.

(** [getTubeHeightAt(x)]. *)
Definition getTubeHeightAt (e : env) (f : fields) (x : Q) : span :=
  let normalizedX := x / pixelWidth e f in
  if Js.ltb normalizedX (throatStart f) then
    let t := normalizedX / throatStart f in
    let top := tubeTop f + (throatTop f - tubeTop f) * t in
    let bottom := tubeBottom f - (tubeBottom f - throatBottom f) * t in
    {| top := top * pixelHeight e f; bottom := bottom * pixelHeight e f |}
  else if Js.leb (throatStart f) normalizedX
          && Js.leb normalizedX (throatEnd f) then
    {| top := throatTop f * pixelHeight e f;
       bottom := throatBottom f * pixelHeight e f |}
  else
    let t := (normalizedX - throatEnd f) / (1 - throatEnd f) in
    let top := throatTop f + (tubeTop f - throatTop f) * t in
    let bottom := throatBottom f + (tubeBottom f - throatBottom f) * t in
    {| top := top * pixelHeight e f; bottom := bottom * pixelHeight e f |}.

(** [getVelocityAt(x)]. *)
Definition getVelocityAt (e : env) (f : fields) (x : Q) : Q :=
  let entranceHeight := (tubeBottom f - tubeTop f) * pixelHeight e f in
  let s := getTubeHeightAt e f x in
  let currentHeight := bottom s - top s in
  baseVelocity f * (entranceHeight / currentHeight).

(** [getPressureAt(x)]. *)
Definition getPressureAt (e : env) (f : fields) (x : Q) : Q :=
  let velocity := getVelocityAt e f x in
  let totalPressure :=
    ATMOSPHERIC_PRESSURE f + 0.5 * AIR_DENSITY f * Js.pow2 (baseVelocity f) in
  let staticPressure :=
    totalPressure - 0.5 * AIR_DENSITY f * Js.pow2 velocity in
  staticPressure.

(** The three sample positions of [drawPressureIndicators], in order
    entrance, throat, exit. *)
Definition indicatorPositions (e : env) (f : fields) : list (Q * string) :=
  [ (pixelWidth e f * 0.15, "Entrance");
    (pixelWidth e f * 0.5, "Throat");
    (pixelWidth e f * 0.85, "Exit") ]%string.

Definition entranceX (e : env) (f : fields) : Q := pixelWidth e f * 0.15.
Definition throatX (e : env) (f : fields) : Q := pixelWidth e f * 0.5.
Definition exitX (e : env) (f : fields) : Q := pixelWidth e f * 0.85.

(** The local height the continuity relation speaks of. *)
Definition localHeight (e : env) (f : fields) (x : Q) : Q :=
  bottom (getTubeHeightAt e f x) - top (getTubeHeightAt e f x).

Definition entranceHeight (e : env) (f : fields) : Q :=
  (tubeBottom f - tubeTop f) * pixelHeight e f.

(** *** Methods *)

(** [draw()].  Its first use of the context is
    [this.ctx.fillStyle = '#FAFAFA']; on an object without [ctx] that
    assignment throws.  With a context, the five drawing passes read the
    state and write only pixels. *)
Definition draw : M obj unit :=
  this <- get ;;
  match this with
  | Live _ => paint
  | Bare _ => throw
  end.

(** One pass of the loop body of [createParticles()]. *)
Definition spawn {S} (f : fields) : M S particle :=
  e <- ask ;;
  r <- random ;;
  let x := r * pixelWidth e f in
  let s := getTubeHeightAt e f x in
  let tubeHeight := bottom s - top s in
  r' <- random ;;
  let y := top s + r' * tubeHeight in
  r'' <- random ;;
  ret {| x := x; y := y; baseY := y; speed := baseVelocity f;
         size := 2.5; opacity := 0.5 + r'' * 0.5 |}.

(** [createParticles()]: the loop runs for i = 0, 1, ... while
    i < particleCount. *)
Definition createParticles {S} (f : fields) : M S fields :=
  ps <- repeatM (Z.to_nat (Qceiling (particleCount f))) (spawn f) ;;
  ret (set_particles ps f).

(** [init()]. *)
Definition init (f : fields) : M obj unit :=
  f' <- createParticles f ;;
  put (Live f') ;;
  draw.

(** [new BernoulliVisualization(canvasId, options)], run on the fresh
    object. *)
Definition constructor (canvasId : string) (o : options) : M obj unit :=
  e <- ask ;;
  match getElementById e canvasId with
  | None => console_error (notFound canvasId)
  | Some canvas =>
      t <- now ;;
      init {| width := canvas_width canvas;
              height := canvas_height canvas;
              AIR_DENSITY := 1.225;
              ATMOSPHERIC_PRESSURE := 101325;
              baseVelocity := Js.or_num (opt_baseVelocity o) 50;
              particleCount := Js.or_num (opt_particleCount o) 150;
              tubeTop := 0.3; tubeBottom := 0.7;
              throatTop := 0.4; throatBottom := 0.6;
              throatStart := 0.35; throatEnd := 0.65;
              isRunning := false; animationFrame := None;
              particles := []; lastTime := t |}
  end.

Definition new (canvasId : string) (o : options) (e : env) (w : world)
  : outcome unit * obj * world :=
  constructor canvasId o e fresh w.

(** The body of the [forEach] of [update(deltaTime)], for one particle. *)
Definition advance {S} (deltaTime : Q) (f : fields) (p : particle)
  : M S particle :=
  e <- ask ;;
  let localVelocity := getVelocityAt e f (x p) in
  let pixelsPerSecond := (localVelocity / baseVelocity f) * 150 in
  let x1 := x p + pixelsPerSecond * deltaTime in
  x2 <- (if Js.ltb (pixelWidth e f) x1
         then _ <- random ;; ret 0
         else ret x1) ;;
  let s := getTubeHeightAt e f x2 in
  let tubeHeight := bottom s - top s in
  let centerY := (top s + bottom s) / 2 in
  let offset := (baseY p - pixelHeight e f * tubeTop f) /
                (pixelHeight e f * (tubeBottom f - tubeTop f)) in
  ret {| x := x2; y := centerY + (offset - 0.5) * tubeHeight * 0.8;
         baseY := baseY p; speed := speed p; size := size p;
         opacity := opacity p |}.

(** [update(deltaTime)].  On an object without [particles] the call
    [this.particles.forEach] throws; on the empty array the loop body is
    never entered. *)
Definition update (deltaTime : Q) : M obj unit :=
  this <- get ;;
  match this with
  | Live f =>
      ps <- mapM (advance deltaTime f) (particles f) ;;
      put (Live (set_particles ps f))
  | Bare b => if b_particles_emptied b then ret tt else throw
  end.

(** [setVelocity(velocity)]. *)
Definition setVelocity (velocity : Q) : M obj unit :=
  modify (set_baseVelocity velocity) ;;
  this <- get ;;
  if negb (running this) then draw else ret tt.

(** [animate()], one frame; the next frame is requested from the host. *)
Definition animate : M obj unit :=
  this <- get ;;
  if negb (running this) then ret tt
  else
    currentTime <- now ;;
    let deltaTime := (currentTime - get_lastTime this) / 1000 in
    modify (set_lastTime currentTime) ;;
    update deltaTime ;;
    draw ;;
    h <- requestAnimationFrame ;;
    modify (set_animationFrame h).

(** [start()]. *)
Definition start : M obj unit :=
  this <- get ;;
  if negb (running this) then
    modify (set_isRunning true) ;;
    t <- now ;;
    modify (set_lastTime t) ;;
    animate
  else ret tt.

(** [stop()]. *)
Definition stop : M obj unit :=
  modify (set_isRunning false) ;;
  this <- get ;;
  match get_animationFrame this with
  | Some h => cancelAnimationFrame h
  | None => ret tt
  end.

(** [destroy()]. *)
Definition destroy : M obj unit :=
  stop ;;
  modify empty_particles.

(** Entrance height over local height: the factor [getVelocityAt]
    multiplies the reference speed by. *)
Definition ratio (e : env) (f : fields) (x : Q) : Q :=
  entranceHeight e f / localHeight e f x.

(** *** What [draw()] computes for its indicators *)






(** [pixelsPerSecond] of a particle at position [x] in [update]. *)
Definition pixelsPerSecond (e : env) (f : fields) (x : Q) : Q :=
  let localVelocity := getVelocityAt e f x in
  (localVelocity / baseVelocity f) * 150.

(** A particle drawn inside the duct: between the walls at its own
    position, with a spawn height inside the entrance envelope. *)
Definition inside (e : env) (f : fields) (p : particle) : Prop :=
  0 <= x p <= pixelWidth e f /\
  top (getTubeHeightAt e f (x p)) <= y p
    <= bottom (getTubeHeightAt e f (x p)) /\
  pixelHeight e f * tubeTop f <= baseY p <= pixelHeight e f * tubeBottom f.

(** Every draw of [Math.random()] lies in [0, 1]. *)
Definition unitRandom (e : env) : Prop :=
  forall k, 0 <= Math_random e k <= 1.

(** The constants the constructor assigns and no method changes. *)
Record venturi (f : fields) : Prop := {
  v_density : AIR_DENSITY f = 1.225;
  v_atmospheric : ATMOSPHERIC_PRESSURE f = 101325;
  v_tubeTop : tubeTop f = 0.3;
  v_tubeBottom : tubeBottom f = 0.7;
  v_throatTop : throatTop f = 0.4;
  v_throatBottom : throatBottom f = 0.6;
  v_throatStart : throatStart f = 0.35;
  v_throatEnd : throatEnd f = 0.65
}.

(** The canvas has a positive size in device and in CSS pixels. *)
Definition visible (e : env) (f : fields) : Prop :=
  0 < width f /\ 0 < height f /\ 0 < pixelRatio e.

(** [this.baseVelocity] and the total pressure [getPressureAt] computes
    from it. *)
Definition totalPressure (f : fields) : Q :=
  ATMOSPHERIC_PRESSURE f + 0.5 * AIR_DENSITY f * Js.pow2 (baseVelocity f).

(** The simulator as the constructor leaves it for the given reference
    speed on an 800 by 400 canvas, without its particles. *)
Definition duct (v : Q) : fields :=
  {| width := 800; height := 400;
     AIR_DENSITY := 1.225; ATMOSPHERIC_PRESSURE := 101325;
     baseVelocity := v; particleCount := 150;
     tubeTop := 0.3; tubeBottom := 0.7;
     throatTop := 0.4; throatBottom := 0.6;
     throatStart := 0.35; throatEnd := 0.65;
     isRunning := false; animationFrame := None;
     particles := []; lastTime := 0 |}.

(** A particle at rest in the entrance zone, and the duct holding just
    that particle. *)
Definition speck : particle :=
  {| x := 100; y := 200; baseY := 200; speed := 50; size := 2.5;
     opacity := 1 |}.
Definition ductWithSpeck (v : Q) : fields := set_particles [speck] (duct v).

End Bernoulli.

(** ** Control-surfaces simulator (js/visualizations/controls.js) *)

Module Controls.
Import Host.

Record fields := {
  width : Q;
  height : Q;
  aileronDeflection : Q;
  elevatorDeflection : Q;
  rudderDeflection : Q;
  centerX : Q;
  centerY : Q;
  rollAngle : Q;
  pitchAngle : Q;
  yawAngle : Q
}.

(** What [setControls] and [reset] can leave on an object whose
    constructor returned at the missing-canvas guard. *)
Record bare := {
  b_aileronDeflection : option Q;
  b_elevatorDeflection : option Q;
  b_rudderDeflection : option Q;
  b_rollAngle : option Q;
  b_pitchAngle : option Q;
  b_yawAngle : option Q
}.

Inductive obj :=
| Live (f : fields)
| Bare (b : bare).

Definition fresh : obj :=
  Bare {| b_aileronDeflection := None; b_elevatorDeflection := None;
          b_rudderDeflection := None; b_rollAngle := None;
          b_pitchAngle := None; b_yawAngle := None |}.

Record options := {
  opt_aileronDeflection : option Q;
  opt_elevatorDeflection : option Q;
  opt_rudderDeflection : option Q
}.

(** The six assignments shared by [setControls] and [reset]: three
    deflections, then three rotation indicators. *)
Definition assign (aileron elevator rudder roll pitch yaw : Q) (o : obj)
  : obj :=
  match o with
  | Live f =>
      Live {| width := width f; height := height f;
              aileronDeflection := aileron;
              elevatorDeflection := elevator;
              rudderDeflection := rudder;
              centerX := centerX f; centerY := centerY f;
              rollAngle := roll; pitchAngle := pitch; yawAngle := yaw |}
  | Bare _ =>
      Bare {| b_aileronDeflection := Some aileron;
              b_elevatorDeflection := Some elevator;
              b_rudderDeflection := Some rudder;
              b_rollAngle := Some roll;
              b_pitchAngle := Some pitch;
              b_yawAngle := Some yaw |}
  end.




(** [draw()]: clears the canvas through [this.ctx] first, which throws
    when there is no context. *)
Definition draw : M obj unit :=
  this <- get ;;
  match this with
  | Live _ => paint
  | Bare _ => throw
  end.

(** [resetPosition()], reached from [init()] only. *)
Definition resetPosition (e : env) (f : fields) : fields :=
  let pixelWidth := width f / pixelRatio e in
  let pixelHeight := height f / pixelRatio e in
  {| width := width f; height := height f;
     aileronDeflection := aileronDeflection f;
     elevatorDeflection := elevatorDeflection f;
     rudderDeflection := rudderDeflection f;
     centerX := pixelWidth / 2; centerY := pixelHeight / 2;
     rollAngle := rollAngle f; pitchAngle := pitchAngle f;
     yawAngle := yawAngle f |}.

(** [init()]. *)
Definition init (f : fields) : M obj unit :=
  e <- ask ;;
  put (Live (resetPosition e f)) ;;
  draw.

(** [new ControlSurfacesVisualization(canvasId, options)]. *)
Definition constructor (canvasId : string) (o : options) : M obj unit :=
  e <- ask ;;
  match getElementById e canvasId with
  | None => console_error (notFound canvasId)
  | Some canvas =>
      init {| width := canvas_width canvas;
              height := canvas_height canvas;
              aileronDeflection := Js.or_num (opt_aileronDeflection o) 0;
              elevatorDeflection := Js.or_num (opt_elevatorDeflection o) 0;
              rudderDeflection := Js.or_num (opt_rudderDeflection o) 0;
              centerX := 0; centerY := 0;
              rollAngle := 0; pitchAngle := 0; yawAngle := 0 |}
  end.

Definition new (canvasId : string) (o : options) (e : env) (w : world)
  : outcome unit * obj * world :=
  constructor canvasId o e fresh w.

(** [setControls(aileron, elevator, rudder)]. *)
Definition setControls (aileron elevator rudder : Q) : M obj unit :=
  modify (assign aileron elevator rudder
                 (- aileron * 0.8) (- elevator * 0.5) (rudder * 0.6)) ;;
  draw.

(** [reset()]. *)
Definition reset : M obj unit :=
  modify (assign 0 0 0 0 0 0) ;;
  draw.

(** [destroy()]: empty body. *)
Definition destroy : M obj unit := ret tt.

End Controls.

(** ** Airfoil simulator ([AirfoilVisualization], js/main.js) *)

Module Airfoil.
Import Host.

Record streamline := { y : Q; offset : Q }.

Record fields := {
  width : Q;
  height : Q;
  angleOfAttack : Q;
  airfoilType : string;
  airspeed : Q;
  chordLength : Q;
  centerX : Q;
  centerY : Q;
  streamlines : list streamline;
  streamlineCount : nat;
  isRunning : bool;
  animationFrame : option nat;
  time : Q
}.

Record options := {
  opt_angleOfAttack : option Q;
  opt_airfoilType : option string
}.

Definition set_angleOfAttack (angle : Q) (f : fields) : fields :=
  {| width := width f; height := height f;
     angleOfAttack := angle; airfoilType := airfoilType f;
     airspeed := airspeed f; chordLength := chordLength f;
     centerX := centerX f; centerY := centerY f;
     streamlines := streamlines f; streamlineCount := streamlineCount f;
     isRunning := isRunning f; animationFrame := animationFrame f;
     time := time f |}.

Definition set_airfoilType (type : string) (f : fields) : fields :=
  {| width := width f; height := height f;
     angleOfAttack := angleOfAttack f; airfoilType := type;
     airspeed := airspeed f; chordLength := chordLength f;
     centerX := centerX f; centerY := centerY f;
     streamlines := streamlines f; streamlineCount := streamlineCount f;
     isRunning := isRunning f; animationFrame := animationFrame f;
     time := time f |}.

(** [resetPosition()]. *)
Definition resetPosition (e : env) (f : fields) : fields :=
  let pixelWidth := width f / pixelRatio e in
  let pixelHeight := height f / pixelRatio e in
  {| width := width f; height := height f;
     angleOfAttack := angleOfAttack f; airfoilType := airfoilType f;
     airspeed := airspeed f; chordLength := chordLength f;
     centerX := pixelWidth / 2; centerY := pixelHeight / 2;
     streamlines := streamlines f; streamlineCount := streamlineCount f;
     isRunning := isRunning f; animationFrame := animationFrame f;
     time := time f |}.

(** The loop of [createStreamlines()], for i = from, from + 1, ... *)
Fixpoint streamlinesFrom {S} (spacing : Q) (from count : nat)
  : M S (list streamline) :=
  match count with
  | O => ret []
  | Datatypes.S count' =>
      r <- random ;;
      rest <- streamlinesFrom spacing (Datatypes.S from) count' ;;
      ret ({| y := spacing * inject_Z (Z.of_nat from); offset := r * 100 |}
             :: rest)
  end.

(** [createStreamlines()]. *)
Definition createStreamlines {S} (f : fields) : M S fields :=
  e <- ask ;;
  let pixelHeight := height f / pixelRatio e in
  let spacing :=
    pixelHeight / (inject_Z (Z.of_nat (streamlineCount f)) + 1) in
  ls <- streamlinesFrom spacing 1 (streamlineCount f) ;;
  ret {| width := width f; height := height f;
         angleOfAttack := angleOfAttack f; airfoilType := airfoilType f;
         airspeed := airspeed f; chordLength := chordLength f;
         centerX := centerX f; centerY := centerY f;
         streamlines := ls; streamlineCount := streamlineCount f;
         isRunning := isRunning f; animationFrame := animationFrame f;
         time := time f |}.

(** [draw()], on an object with a context. *)
Definition draw {S} : M S unit := paint.

(** [new AirfoilVisualization(canvasId, options)]; the state is [None]
    until the properties are assigned, and stays [None] when the canvas is
    missing. *)
Definition constructor (canvasId : string) (o : options)
  : M (option fields) unit :=
  e <- ask ;;
  match getElementById e canvasId with
  | None => console_error (notFound canvasId)
  | Some canvas =>
      f <- createStreamlines
             (resetPosition e
                {| width := canvas_width canvas;
                   height := canvas_height canvas;
                   angleOfAttack := Js.or_num (opt_angleOfAttack o) 5;
                   airfoilType := Js.or_str (opt_airfoilType o) "cambered";
                   airspeed := 50; chordLength := 200;
                   centerX := 0; centerY := 0;
                   streamlines := []; streamlineCount := 8;
                   isRunning := false; animationFrame := None;
                   time := 0 |}) ;;
      put (Some f) ;;
      draw
  end.

Definition new (canvasId : string) (o : options) (e : env) (w : world)
  : outcome unit * option fields * world :=
  constructor canvasId o e None w.

(** [setAngleOfAttack(angle)]. *)
Definition setAngleOfAttack (angle : Q) : M fields unit :=
  modify (set_angleOfAttack angle) ;;
  this <- get ;;
  if negb (isRunning this) then draw else ret tt.

(** [setAirfoilType(type)]. *)
Definition setAirfoilType (type : string) : M fields unit :=
  modify (set_airfoilType type) ;;
  this <- get ;;
  if negb (isRunning this) then draw else ret tt.

(** [calculateLiftCoefficient()]. *)
Definition calculateLiftCoefficient (this : fields) : Q :=
  let alpha := angleOfAttack this in
  let baseOffset :=
    if String.eqb (airfoilType this) "cambered" then 0.2 else 0 in
  let stallAngle := 15 in
  if Js.ltb alpha (-10) then -0.5
  else if Js.leb (-10) alpha && Js.leb alpha stallAngle then
    baseOffset + 0.1 * alpha
  else if Js.ltb stallAngle alpha && Js.leb alpha 20 then
    let maxCL := baseOffset + 0.1 * stallAngle in
    let reduction := (alpha - stallAngle) / 5 in
    maxCL - (reduction * 0.8)
  else 0.5.

(** [calculateDragCoefficient()]. *)
Definition calculateDragCoefficient (this : fields) : Q :=
  let CL := calculateLiftCoefficient this in
  let alpha := angleOfAttack this in
  let CD0 := 0.02 in
  let CDi := Js.pow2 CL / (Js.PI * 6) in
  let stallDrag := if Js.ltb 15 (Qabs alpha) then 0.3 else 0 in
  CD0 + CDi + stallDrag.

(** Whether [drawStallWarning()] draws its overlay: it returns at once
    when [Math.abs(this.angleOfAttack) <= 15]. *)
Definition stallWarningShown (this : fields) : bool :=
  negb (Js.leb (Qabs (angleOfAttack this)) 15).

(** The coefficient the simulator shows after [setAngleOfAttack(alpha)],
    as a function of [alpha]. *)
Definition liftAt (this : fields) (alpha : Q) : Q :=
  calculateLiftCoefficient (set_angleOfAttack alpha this).

(** The camber-dependent constant of the linear branch, and the peak the
    linear branch reaches at the stall angle. *)
Definition baseOffset (this : fields) : Q :=
  if String.eqb (airfoilType this) "cambered" then 0.2 else 0.
Definition peak (this : fields) : Q := baseOffset this + 0.1 * 15.

End Airfoil.

(** ** Four-forces simulator ([ForcesVisualization], js/main.js) *)

Module Forces.
Import Host.

Record fields := {
  width : Q;
  height : Q;
  lift : Q;
  weight : Q;
  thrust : Q;
  drag : Q;
  planeX : Q;
  planeY : Q;
  planeRotation : Q;
  verticalVelocity : Q;
  horizontalVelocity : Q;
  isRunning : bool;
  animationFrame : option nat;
  lastTime : Q;
  maxArrowLength : Q
}.

Record options := {
  opt_lift : option Q;
  opt_weight : option Q;
  opt_thrust : option Q;
  opt_drag : option Q
}.

(** [draw()], on an object with a context. *)
Definition draw {S} : M S unit := paint.

(** [resetPlanePosition()]. *)
Definition resetPlanePosition (e : env) (f : fields) : fields :=
  let pixelWidth := width f / pixelRatio e in
  let pixelHeight := height f / pixelRatio e in
  {| width := width f; height := height f;
     lift := lift f; weight := weight f; thrust := thrust f; drag := drag f;
     planeX := pixelWidth / 2; planeY := pixelHeight / 2;
     planeRotation := 0; verticalVelocity := 0; horizontalVelocity := 0;
     isRunning := isRunning f; animationFrame := animationFrame f;
     lastTime := lastTime f; maxArrowLength := maxArrowLength f |}.

Definition set_forces (l w t d : Q) (f : fields) : fields :=
  {| width := width f; height := height f;
     lift := l; weight := w; thrust := t; drag := d;
     planeX := planeX f; planeY := planeY f;
     planeRotation := planeRotation f;
     verticalVelocity := verticalVelocity f;
     horizontalVelocity := horizontalVelocity f;
     isRunning := isRunning f; animationFrame := animationFrame f;
     lastTime := lastTime f; maxArrowLength := maxArrowLength f |}.

(** [new ForcesVisualization(canvasId, options)]. *)
Definition constructor (canvasId : string) (o : options)
  : M (option fields) unit :=
  e <- ask ;;
  match getElementById e canvasId with
  | None => console_error (notFound canvasId)
  | Some canvas =>
      t <- now ;;
      put (Some (resetPlanePosition e
                   {| width := canvas_width canvas;
                      height := canvas_height canvas;
                      lift := Js.or_num (opt_lift o) 50;
                      weight := Js.or_num (opt_weight o) 50;
                      thrust := Js.or_num (opt_thrust o) 50;
                      drag := Js.or_num (opt_drag o) 50;
                      planeX := 0; planeY := 0; planeRotation := 0;
                      verticalVelocity := 0; horizontalVelocity := 0;
                      isRunning := false; animationFrame := None;
                      lastTime := t; maxArrowLength := 100 |})) ;;
      draw
  end.

Definition new (canvasId : string) (o : options) (e : env) (w : world)
  : outcome unit * option fields * world :=
  constructor canvasId o e None w.

(** [reset()]. *)
Definition reset : M fields unit :=
  e <- ask ;;
  modify (set_forces 50 50 50 50) ;;
  modify (resetPlanePosition e) ;;
  this <- get ;;
  if negb (isRunning this) then draw else ret tt.

(** [setForces(lift, weight, thrust, drag)]. *)
Definition setForces (l w t d : Q) : M fields unit :=
  modify (set_forces l w t d) ;;
  this <- get ;;
  if negb (isRunning this) then draw else ret tt.

(** [update(deltaTime)]. *)
Definition update (deltaTime : Q) : M fields unit :=
  e <- ask ;;
  this <- get ;;
  let pixelWidth := width this / pixelRatio e in
  let pixelHeight := height this / pixelRatio e in
  let netVertical := lift this - weight this in
  let netHorizontal := thrust this - drag this in
  let velocityScale := 0.5 in
  let vv := verticalVelocity this + netVertical * velocityScale * deltaTime in
  let hv :=
    horizontalVelocity this + netHorizontal * velocityScale * deltaTime in
  let vv := vv * 0.95 in
  let hv := hv * 0.95 in
  let py := planeY this - vv * deltaTime in
  let px := planeX this + hv * deltaTime in
  let padding := 100 in
  let px := Js.max padding (Js.min (pixelWidth - padding) px) in
  let py := Js.max padding (Js.min (pixelHeight - padding) py) in
  let targetRotation := - netVertical * 0.003 in
  put {| width := width this; height := height this;
         lift := lift this; weight := weight this;
         thrust := thrust this; drag := drag this;
         planeX := px; planeY := py;
         planeRotation :=
           planeRotation this + (targetRotation - planeRotation this) * 0.1;
         verticalVelocity := vv; horizontalVelocity := hv;
         isRunning := isRunning this;
         animationFrame := animationFrame this;
         lastTime := lastTime this;
         maxArrowLength := maxArrowLength this |}.

(** [n] successive frames of [update] with the same [deltaTime]. *)
Fixpoint frames (n : nat) (deltaTime : Q) : M fields unit :=
  match n with
  | O => ret tt
  | Datatypes.S n' => update deltaTime ;; frames n' deltaTime
  end.

(** The scale, the damping factor and the speed at which one frame's gain
    equals one frame's damping loss. *)
Definition velocityScale : Q := 0.5.



(** Forces in balance, no velocity, level attitude, and the body inside
    the padded region of the canvas. *)
Definition equilibrium (e : env) (f : fields) : Prop :=
  lift f == weight f /\ thrust f == drag f /\
  verticalVelocity f == 0 /\ horizontalVelocity f == 0 /\
  planeRotation f == 0 /\
  100 <= planeX f <= width f / pixelRatio e - 100 /\
  100 <= planeY f <= height f / pixelRatio e - 100.

(** The simulator at rest in the middle of an 800 by 400 canvas with the
    given forces. *)
Definition atRest (l w t d : Q) : fields :=
  {| width := 800; height := 400;
     lift := l; weight := w; thrust := t; drag := d;
     planeX := 400; planeY := 200; planeRotation := 0;
     verticalVelocity := 0; horizontalVelocity := 0;
     isRunning := false; animationFrame := None;
     lastTime := 0; maxArrowLength := 100 |}.

End Forces.

(** ** Flight-phases simulator ([FlightPhasesVisualization], js/main.js) *)

Module Phases.
Import Host.

Record pose := {
  x : Q;
  y : Q;
  rotation : Q;
  targetX : Q;
  targetY : Q;
  targetRotation : Q;
  velocity : Q;
  targetVelocity : Q
}.

Record fields := {
  width : Q;
  height : Q;
  isPlaying : bool;
  animationFrame : option nat;
  lastTime : Q;
  currentPhase : string;
  phaseProgress : Q;
  airplane : pose;
  groundLevel : Q;
  runwayStart : Q;
  runwayEnd : Q;
  autoPlayEnabled : bool;
  phaseSequence : list string;
  currentPhaseIndex : nat;
  phaseDuration : Q;
  phaseStartTime : Q
}.

Definition theSequence : list string :=
  ["takeoff"; "climb"; "cruise"; "descent"; "landing"].

(** *** Property writes *)

Definition set_playing (b : bool) (h : option nat) (t : Q) (f : fields)
  : fields :=
  {| width := width f; height := height f;
     isPlaying := b; animationFrame := h; lastTime := t;
     currentPhase := currentPhase f; phaseProgress := phaseProgress f;
     airplane := airplane f; groundLevel := groundLevel f;
     runwayStart := runwayStart f; runwayEnd := runwayEnd f;
     autoPlayEnabled := autoPlayEnabled f;
     phaseSequence := phaseSequence f;
     currentPhaseIndex := currentPhaseIndex f;
     phaseDuration := phaseDuration f;
     phaseStartTime := phaseStartTime f |}.

Definition set_phase (phase : string) (progress : Q) (f : fields) : fields :=
  {| width := width f; height := height f;
     isPlaying := isPlaying f; animationFrame := animationFrame f;
     lastTime := lastTime f;
     currentPhase := phase; phaseProgress := progress;
     airplane := airplane f; groundLevel := groundLevel f;
     runwayStart := runwayStart f; runwayEnd := runwayEnd f;
     autoPlayEnabled := autoPlayEnabled f;
     phaseSequence := phaseSequence f;
     currentPhaseIndex := currentPhaseIndex f;
     phaseDuration := phaseDuration f;
     phaseStartTime := phaseStartTime f |}.

Definition set_airplane (a : pose) (f : fields) : fields :=
  {| width := width f; height := height f;
     isPlaying := isPlaying f; animationFrame := animationFrame f;
     lastTime := lastTime f;
     currentPhase := currentPhase f; phaseProgress := phaseProgress f;
     airplane := a; groundLevel := groundLevel f;
     runwayStart := runwayStart f; runwayEnd := runwayEnd f;
     autoPlayEnabled := autoPlayEnabled f;
     phaseSequence := phaseSequence f;
     currentPhaseIndex := currentPhaseIndex f;
     phaseDuration := phaseDuration f;
     phaseStartTime := phaseStartTime f |}.

Definition set_autoPlay (b : bool) (idx : nat) (start : Q) (f : fields)
  : fields :=
  {| width := width f; height := height f;
     isPlaying := isPlaying f; animationFrame := animationFrame f;
     lastTime := lastTime f;
     currentPhase := currentPhase f; phaseProgress := phaseProgress f;
     airplane := airplane f; groundLevel := groundLevel f;
     runwayStart := runwayStart f; runwayEnd := runwayEnd f;
     autoPlayEnabled := b;
     phaseSequence := phaseSequence f;
     currentPhaseIndex := idx;
     phaseDuration := phaseDuration f;
     phaseStartTime := start |}.

Definition set_progress (p : Q) (f : fields) : fields :=
  set_phase (currentPhase f) p f.
Definition set_phaseStartTime (t : Q) (f : fields) : fields :=
  set_autoPlay (autoPlayEnabled f) (currentPhaseIndex f) t f.
Definition set_currentPhaseIndex (i : nat) (f : fields) : fields :=
  set_autoPlay (autoPlayEnabled f) i (phaseStartTime f) f.
Definition set_autoPlayEnabled (b : bool) (f : fields) : fields :=
  set_autoPlay b (currentPhaseIndex f) (phaseStartTime f) f.

(** The four assignments of one [case] of [setPhase]. *)
Definition retarget (tx ty trot tv : Q) (a : pose) : pose :=
  {| x := x a; y := y a; rotation := rotation a;
     targetX := tx; targetY := ty; targetRotation := trot;
     velocity := velocity a; targetVelocity := tv |}.

(** The four assignments under [if (x === 0 && y === 0)]. *)
Definition snap (a : pose) : pose :=
  {| x := targetX a; y := targetY a; rotation := targetRotation a;
     targetX := targetX a; targetY := targetY a;
     targetRotation := targetRotation a;
     velocity := targetVelocity a; targetVelocity := targetVelocity a |}.

(** *** Methods *)

(** [draw()], on an object with a context. *)
Definition draw {S} : M S unit := paint.

(** [resetDimensions()]. *)
Definition resetDimensions (e : env) (f : fields) : fields :=
  let pixelWidth := width f / pixelRatio e in
  let pixelHeight := height f / pixelRatio e in
  {| width := width f; height := height f;
     isPlaying := isPlaying f; animationFrame := animationFrame f;
     lastTime := lastTime f;
     currentPhase := currentPhase f; phaseProgress := phaseProgress f;
     airplane := airplane f; groundLevel := pixelHeight - 80;
     runwayStart := 50; runwayEnd := pixelWidth - 50;
     autoPlayEnabled := autoPlayEnabled f;
     phaseSequence := phaseSequence f;
     currentPhaseIndex := currentPhaseIndex f;
     phaseDuration := phaseDuration f;
     phaseStartTime := phaseStartTime f |}.

(** [setPhase(phase)]; the [switch] has no [default]. *)
Definition setPhase (phase : string) : M fields unit :=
  e <- ask ;;
  modify (set_phase phase 0) ;;
  t <- now ;;
  modify (set_phaseStartTime t) ;;
  this <- get ;;
  let pixelWidth := width this / pixelRatio e in
  let pixelHeight := height this / pixelRatio e in
  let a := airplane this in
  let a :=
    if String.eqb phase "takeoff" then
      retarget (pixelWidth * 0.2) (groundLevel this - 20) 0 60 a
    else if String.eqb phase "climb" then
      retarget (pixelWidth * 0.35) (pixelHeight * 0.4) (-15) 70 a
    else if String.eqb phase "cruise" then
      retarget (pixelWidth * 0.5) (pixelHeight * 0.3) 0 80 a
    else if String.eqb phase "descent" then
      retarget (pixelWidth * 0.65) (pixelHeight * 0.5) 5 65 a
    else if String.eqb phase "landing" then
      retarget (pixelWidth * 0.8) (groundLevel this - 20) 3 50 a
    else a in
  let a := if Qeq_bool (x a) 0 && Qeq_bool (y a) 0 then snap a else a in
  put (set_airplane a this).

(** [init()]. *)
Definition init : M fields unit :=
  e <- ask ;;
  modify (resetDimensions e) ;;
  setPhase "cruise" ;;
  draw.

(** The properties assigned by the constructor before [init()]. *)
Definition initial (canvas : canvas) : fields :=
  {| width := canvas_width canvas; height := canvas_height canvas;
     isPlaying := false; animationFrame := None; lastTime := 0;
     currentPhase := "cruise"; phaseProgress := 0;
     airplane := {| x := 0; y := 0; rotation := 0;
                    targetX := 0; targetY := 0; targetRotation := 0;
                    velocity := 0; targetVelocity := 0 |};
     groundLevel := 0; runwayStart := 0; runwayEnd := 0;
     autoPlayEnabled := false;
     phaseSequence := theSequence;
     currentPhaseIndex := 2;
     phaseDuration := 3000;
     phaseStartTime := 0 |}.

(** [new FlightPhasesVisualization(canvasId)]; the constructor does not
    read its [options] argument. *)
Definition constructor (canvasId : string) : M (option fields) unit :=
  e <- ask ;;
  match getElementById e canvasId with
  | None => console_error (notFound canvasId)
  | Some canvas =>
      fun e s w =>
        match init e (initial canvas) w with
        | (r, f, w') => (r, Some f, w')
        end
  end.

Definition new (canvasId : string) (e : env) (w : world)
  : outcome unit * option fields * world :=
  constructor canvasId e None w.

(** [update(deltaTime)]. *)
Definition update (deltaTime : Q) : M fields unit :=
  this <- get ;;
  (if autoPlayEnabled this then
     t <- now ;;
     let elapsed := t - phaseStartTime this in
     (if Js.leb (phaseDuration this) elapsed then
        let i := ((currentPhaseIndex this + 1)
                    mod List.length (phaseSequence this))%nat in
        modify (set_currentPhaseIndex i) ;;
        setPhase (nth i (phaseSequence this) "undefined")
      else ret tt) ;;
     t' <- now ;;
     this <- get ;;
     put (set_progress
            (Js.min ((t' - phaseStartTime this) / phaseDuration this) 1)
            this)
   else ret tt) ;;
  this <- get ;;
  let smoothing := 0.05 in
  let a := airplane this in
  put (set_airplane
         {| x := x a + (targetX a - x a) * smoothing;
            y := y a + (targetY a - y a) * smoothing;
            rotation := rotation a + (targetRotation a - rotation a) * smoothing;
            targetX := targetX a; targetY := targetY a;
            targetRotation := targetRotation a;
            velocity := velocity a + (targetVelocity a - velocity a) * smoothing;
            targetVelocity := targetVelocity a |}
         this).

(** [animate()], one frame. *)
Definition animate : M fields unit :=
  this <- get ;;
  if negb (isPlaying this) then ret tt
  else
    currentTime <- now ;;
    let deltaTime := (currentTime - lastTime this) / 1000 in
    modify (fun f => set_playing (isPlaying f) (animationFrame f) currentTime f) ;;
    update deltaTime ;;
    draw ;;
    h <- requestAnimationFrame ;;
    modify (fun f => set_playing (isPlaying f) (Some h) (lastTime f) f).

(** [start()]. *)
Definition start : M fields unit :=
  this <- get ;;
  if negb (isPlaying this) then
    t <- now ;;
    modify (fun f => set_playing true (animationFrame f) t f) ;;
    animate
  else ret tt.

(** [stop()]. *)
Definition stop : M fields unit :=
  modify (fun f => set_playing false (animationFrame f) (lastTime f) f) ;;
  this <- get ;;
  match animationFrame this with
  | Some h =>
      cancelAnimationFrame h ;;
      modify (fun f => set_playing (isPlaying f) None (lastTime f) f)
  | None => ret tt
  end.

(** [toggleAutoPlay()]. *)
Definition toggleAutoPlay : M fields bool :=
  modify (fun f => set_autoPlayEnabled (negb (autoPlayEnabled f)) f) ;;
  this <- get ;;
  (if autoPlayEnabled this then
     t <- now ;;
     modify (set_phaseStartTime t) ;;
     start
   else ret tt) ;;
  this <- get ;;
  ret (autoPlayEnabled this).

(** *** Runs of the auto-play sequence *)

(** An [update] called in this state advances the phase: auto-play is on
    and the clock reading it is about to take is at least one phase
    duration past the phase start. *)
Definition due (e : env) (f : fields) (w : world) : Prop :=
  autoPlayEnabled f = true /\
  phaseDuration f <= performance_now e (clock_reads w) - phaseStartTime f.

(** [advanced e n c c']: a sequence of [update] calls leads from [c] to
    [c'] and exactly [n] of them advanced the phase.  Between two calls
    the rest of the page may use the clock and the canvas. *)
Inductive advanced (e : env)
  : nat -> fields * world -> fields * world -> Prop :=
| adv_done c : advanced e 0 c c
| adv_page n f w w' c' :
    advanced e n (f, w') c' -> advanced e n (f, w) c'
| adv_idle n dt f w f' w' c' :
    ~ due e f w ->
    update dt e f w = (Returned tt, f', w') ->
    advanced e n (f', w') c' ->
    advanced e n (f, w) c'
| adv_step n dt f w f' w' c' :
    due e f w ->
    update dt e f w = (Returned tt, f', w') ->
    advanced e n (f', w') c' ->
    advanced e (Datatypes.S n) (f, w) c'.

(** [altitudeFraction] and [altitude] of [drawAltitudeIndicator()]. *)
Definition altitudeFraction (f : fields) : Q :=
  1 - (y (airplane f) / groundLevel f).

Definition altitude (f : fields) : Q :=
  let maxAltitude := 10000 in
  Js.max 0 (inject_Z (Js.round (altitudeFraction f * maxAltitude))).

(** The smoothing factor of [update], and the n-th power of what one
    frame leaves of the distance to the target. *)
Definition smoothing : Q := 0.05.

(** [n] successive calls of [update] with the same [deltaTime]. *)
Fixpoint updates (n : nat) (deltaTime : Q) : M fields unit :=
  match n with
  | O => ret tt
  | Datatypes.S n' => update deltaTime ;; updates n' deltaTime
  end.

(** [due], decided. *)
Definition dueb (e : env) (f : fields) (w : world) : bool :=
  autoPlayEnabled f
  && Js.leb (phaseDuration f)
            (performance_now e (clock_reads w) - phaseStartTime f).

(** Every one of the next [n] calls of [update] finds the phase due. *)
Fixpoint allDue (n : nat) (deltaTime : Q) (e : env) (f : fields) (w : world)
  : bool :=
  match n with
  | O => true
  | Datatypes.S n' =>
      dueb e f w
      && match update deltaTime e f w with
         | (Returned _, f', w') => allDue n' deltaTime e f' w'
         | (Thrown, _, _) => false
         end
  end.

(** The state the constructor and [init()] leave on a canvas, and what
    is known of it later: the sequence is the constructor's, and the
    index and the phase name agree. *)
Definition synced (f : fields) : Prop :=
  phaseSequence f = theSequence /\
  (currentPhaseIndex f < 5)%nat /\
  currentPhase f = nth (currentPhaseIndex f) theSequence "undefined".

End Phases.

(** ** Intro preview ([IntroVisualization], js/visualizations/intro.js) *)

Module Intro.
Import Host.

Record pose := { x : Q; y : Q; rotation : Q; onGround : bool }.

Record fields := {
  width : Q;
  height : Q;
  isRunning : bool;
  animationFrame : option nat;
  lastTime : Q;
  time : Q;
  airplane : pose;
  groundLevel : Q;
  forceAlpha : Q
}.

(** [resetDimensions()]. *)
Definition resetDimensions (e : env) (f : fields) : fields :=
  let pixelWidth := width f / pixelRatio e in
  let pixelHeight := height f / pixelRatio e in
  let groundLevel := pixelHeight - 60 in
  {| width := width f; height := height f;
     isRunning := isRunning f; animationFrame := animationFrame f;
     lastTime := lastTime f; time := time f;
     airplane := {| x := pixelWidth * 0.2; y := groundLevel - 15;
                    rotation := rotation (airplane f);
                    onGround := onGround (airplane f) |};
     groundLevel := groundLevel;
     forceAlpha := forceAlpha f |}.

(** [new IntroVisualization(canvasId)]; the constructor does not read
    its [options] argument. *)
Definition constructor (canvasId : string) : M (option fields) unit :=
  e <- ask ;;
  match getElementById e canvasId with
  | None => console_error (notFound canvasId)
  | Some canvas =>
      put (Some (resetDimensions e
                   {| width := canvas_width canvas;
                      height := canvas_height canvas;
                      isRunning := false; animationFrame := None;
                      lastTime := 0; time := 0;
                      airplane := {| x := 0; y := 0; rotation := 0;
                                     onGround := true |};
                      groundLevel := 0; forceAlpha := 0 |})) ;;
      paint
  end.

Definition new (canvasId : string) (e : env) (w : world)
  : outcome unit * option fields * world :=
  constructor canvasId e None w.

(** Position of the current time in the six-second loop, from 0 to 1. *)
Definition loopPosition (time : Q) : Q :=
  let loopDuration := 6 in
  Js.rem time loopDuration / loopDuration.

(** [update(deltaTime)]. *)
Definition update (deltaTime : Q) : M fields unit :=
  e <- ask ;;
  this <- get ;;
  let time := time this + deltaTime in
  let pixelWidth := width this / pixelRatio e in
  let t := loopPosition time in
  let '(pose, alpha) :=
    if Js.ltb t 0.3 then
      let phase := t / 0.3 in
      ({| x := pixelWidth * (0.15 + phase * 0.15);
          y := groundLevel this - 15;
          rotation := 0; onGround := true |},
       Js.min (phase * 2) 1)
    else if Js.ltb t 0.5 then
      let phase := (t - 0.3) / 0.2 in
      ({| x := pixelWidth * (0.3 + phase * 0.1);
          y := groundLevel this - 15 - phase * 40;
          rotation := - phase * 12; onGround := false |},
       1)
    else if Js.ltb t 0.85 then
      let phase := (t - 0.5) / 0.35 in
      ({| x := pixelWidth * (0.4 + phase * 0.3);
          y := groundLevel this - 55 - phase * 80;
          rotation := -10; onGround := false |},
       1)
    else
      let phase := (t - 0.85) / 0.15 in
      ({| x := pixelWidth * 0.7 + phase * pixelWidth * 0.2;
          y := groundLevel this - 135;
          rotation := -5; onGround := false |},
       1 - phase) in
  put {| width := width this; height := height this;
         isRunning := isRunning this;
         animationFrame := animationFrame this;
         lastTime := lastTime this; time := time;
         airplane := pose; groundLevel := groundLevel this;
         forceAlpha := alpha |}.

(** Whether [draw()] draws the force arrows: [this.forceAlpha > 0]. *)
Definition forcesDrawn (f : fields) : bool := Js.ltb 0 (forceAlpha f).

(** The preview on an 800 by 400 canvas with its clock at [t]; at 0 it
    is as the constructor leaves it. *)
Definition previewAt (t : Q) : fields :=
  {| width := 800; height := 400;
     isRunning := false; animationFrame := None;
     lastTime := 0; time := t;
     airplane := {| x := 160; y := 325; rotation := 0; onGround := true |};
     groundLevel := 340; forceAlpha := 0 |}.
Definition preview : fields := previewAt 0.

End Intro.

(** ** Shared notions used by the statements *)

(** Continuity of a numeric function at a point, in epsilon and delta. *)
Definition continuous_at (f : Q -> Q) (a : Q) : Prop :=
  forall eps, 0 < eps ->
    exists delta, 0 < delta /\
      forall x, Qabs (x - a) < delta -> Qabs (f x - f a) < eps.

(** A page without the canvas a simulator asks for. *)
Definition emptyPage : Host.env :=
  {| Host.getElementById := fun _ => None;
     Host.devicePixelRatio := Some 1;
     Host.performance_now := fun k => inject_Z (Z.of_nat k);
     Host.Math_random := fun _ => 0.5 |}.

(** A page with an 800 by 400 canvas under every id.  The clock stands at
    0 for the first six readings and then moves three seconds per
    reading, so that every later frame finds a phase duration elapsed. *)
Definition demoPage : Host.env :=
  {| Host.getElementById :=
       fun _ => Some {| Host.canvas_width := 800; Host.canvas_height := 400 |};
     Host.devicePixelRatio := Some 1;
     Host.performance_now := fun k => 3000 * inject_Z (Z.of_nat (k - 5));
     Host.Math_random := fun _ => 0.5 |}.

(** The flight-phases simulator on [demoPage], constructed and then
    switched to auto-play. *)
Definition demoFlight : Host.outcome bool * Phases.fields * Host.world :=
  match Phases.new "phases-canvas" demoPage Host.boot with
  | (_, Some f, w) => Phases.toggleAutoPlay demoPage f w
  | (_, None, w) =>
      (Host.Thrown,
       Phases.initial {| Host.canvas_width := 0; Host.canvas_height := 0 |},
       w)
  end.

(** The same simulator after [n] further frames of [update]. *)
Definition demoFlightAfter (n : nat)
  : Host.outcome unit * Phases.fields * Host.world :=
  Phases.updates n 0.016 demoPage
    (Host.this_after demoFlight) (Host.world_after demoFlight).

(** An airfoil object of the given type, as the constructor leaves it on
    an 800 by 400 canvas apart from its streamlines. *)
Definition wing (type : string) : Airfoil.fields :=
  {| Airfoil.width := 800; Airfoil.height := 400;
     Airfoil.angleOfAttack := 5; Airfoil.airfoilType := type;
     Airfoil.airspeed := 50; Airfoil.chordLength := 200;
     Airfoil.centerX := 400; Airfoil.centerY := 200;
     Airfoil.streamlines := []; Airfoil.streamlineCount := 8;
     Airfoil.isRunning := false; Airfoil.animationFrame := None;
     Airfoil.time := 0 |}.

(** * Properties *)

Module JsFacts.

Lemma ltb_lt x y : Js.ltb x y = true <-> x < y.
Proof.
  unfold Js.ltb. rewrite negb_true_iff.
  split; intro H.
  - apply Qnot_le_lt. intro L. apply Qle_bool_iff in L. congruence.
  - destruct (Qle_bool y x) eqn:E; [|reflexivity].
    apply Qle_bool_iff in E. exfalso. revert H. apply Qle_not_lt, E.
Qed.

Lemma ltb_ge x y : Js.ltb x y = false <-> y <= x.
Proof.
  unfold Js.ltb. rewrite negb_false_iff. apply Qle_bool_iff.
Qed.

Lemma leb_le x y : Js.leb x y = true <-> x <= y.
Proof. apply Qle_bool_iff. Qed.

Lemma leb_gt x y : Js.leb x y = false <-> y < x.
Proof.
  unfold Js.leb. split; intro H.
  - apply Qnot_le_lt. intro L. apply Qle_bool_iff in L. congruence.
  - destruct (Qle_bool x y) eqn:E; [|reflexivity].
    apply Qle_bool_iff in E. exfalso. revert H. apply Qle_not_lt, E.
Qed.

End JsFacts.

(** Case analysis on a boolean comparison, leaving the order fact that
    [lra] understands in the context. *)
Ltac cmp c :=
  let E := fresh "E" in
  destruct c eqn:E;
  [ first [ apply JsFacts.ltb_lt in E | apply JsFacts.leb_le in E ]
  | first [ apply JsFacts.ltb_ge in E | apply JsFacts.leb_gt in E ] ].

(** [lra] after turning divisions by constants into multiplications. *)
Ltac qlra := unfold Qdiv in *; cbn [Qinv Qnum Qden] in *; lra.

Module AirfoilSpec.
Import Airfoil.

Lemma liftAt_unfold this alpha :
  liftAt this alpha =
  if Js.ltb alpha (-10) then -0.5
  else if Js.leb (-10) alpha && Js.leb alpha 15 then
    baseOffset this + 0.1 * alpha
  else if Js.ltb 15 alpha && Js.leb alpha 20 then
    peak this - ((alpha - 15) / 5 * 0.8)
  else 0.5.
Proof. reflexivity. Qed.

Lemma baseOffset_cases this :
  baseOffset this = 0.2 \/ baseOffset this = 0.
Proof.
  unfold baseOffset. destruct (String.eqb _ _); [left | right]; reflexivity.
Qed.

Lemma peak_unfold this : peak this == baseOffset this + 1.5.
Proof. unfold peak. lra. Qed.

Lemma liftAt_below this alpha : alpha < -10 -> liftAt this alpha == -0.5.
Proof.
  intro H. rewrite liftAt_unfold.
  cmp (Js.ltb alpha (-10)); [reflexivity | lra].
Qed.

Lemma liftAt_linear this alpha :
  -10 <= alpha <= 15 -> liftAt this alpha == baseOffset this + 0.1 * alpha.
Proof.
  intros [H1 H2]. rewrite liftAt_unfold.
  cmp (Js.ltb alpha (-10)); [lra|].
  cmp (Js.leb (-10) alpha); [|lra].
  cmp (Js.leb alpha 15); [|lra].
  reflexivity.
Qed.

Lemma liftAt_stall this alpha :
  15 < alpha <= 20 ->
  liftAt this alpha == peak this - 0.8 * ((alpha - 15) / 5).
Proof.
  intros [H1 H2]. rewrite liftAt_unfold.
  cmp (Js.ltb alpha (-10)); [lra|].
  cmp (Js.leb (-10) alpha); [|lra].
  cmp (Js.leb alpha 15); [lra|].
  cmp (Js.ltb 15 alpha); [|lra].
  cmp (Js.leb alpha 20); [|lra].
  simpl. ring.
Qed.

Lemma liftAt_above this alpha : 20 < alpha -> liftAt this alpha == 0.5.
Proof.
  intro H. rewrite liftAt_unfold.
  cmp (Js.ltb alpha (-10)); [lra|].
  cmp (Js.leb (-10) alpha); [|lra].
  cmp (Js.leb alpha 15); [lra|].
  cmp (Js.ltb 15 alpha); [|lra].
  cmp (Js.leb alpha 20); [lra|].
  reflexivity.
Qed.

Lemma liftAt_continuous_15 this : continuous_at (liftAt this) 15.
Proof.
  intros eps Heps.
  assert (H15 : liftAt this 15 == baseOffset this + 1.5).
  { rewrite liftAt_linear by lra. lra. }
  destruct (Qlt_le_dec eps 1) as [Hlt | Hge].
  - exists eps. split; [assumption|].
    intros x Hx. apply Qabs_Qlt_condition in Hx. destruct Hx as [Hx1 Hx2].
    apply Qabs_Qlt_condition.
    destruct (Qlt_le_dec 15 x) as [Hr | Hl].
    + rewrite (liftAt_stall this x) by lra.
      rewrite H15, peak_unfold. split; qlra.
    + rewrite (liftAt_linear this x) by lra.
      rewrite H15. split; lra.
  - exists 1. split; [lra|].
    intros x Hx. apply Qabs_Qlt_condition in Hx. destruct Hx as [Hx1 Hx2].
    apply Qabs_Qlt_condition.
    destruct (Qlt_le_dec 15 x) as [Hr | Hl].
    + rewrite (liftAt_stall this x) by lra.
      rewrite H15, peak_unfold. split; qlra.
    + rewrite (liftAt_linear this x) by lra.
      rewrite H15. split; lra.
Qed.

Lemma liftAt_jump_minus10 this : ~ continuous_at (liftAt this) (-10).
Proof.
  intro C. destruct (C 0.25) as [delta [Hd Hc]]; [lra|].
  specialize (Hc (-10 - delta / 2)).
  assert (Hx : Qabs (-10 - delta / 2 - -10) < delta).
  { apply Qabs_Qlt_condition. split; qlra. }
  specialize (Hc Hx). apply Qabs_Qlt_condition in Hc.
  rewrite (liftAt_below this (-10 - delta / 2)) in Hc
    by qlra.
  rewrite (liftAt_linear this (-10)) in Hc by lra.
  destruct (baseOffset_cases this) as [B | B]; rewrite B in Hc; qlra.
Qed.

Lemma liftAt_jump_20 this : ~ continuous_at (liftAt this) 20.
Proof.
  intro C. destruct (C 0.125) as [delta [Hd Hc]]; [lra|].
  specialize (Hc (20 + delta / 2)).
  assert (Hx : Qabs (20 + delta / 2 - 20) < delta).
  { apply Qabs_Qlt_condition. split; qlra. }
  specialize (Hc Hx). apply Qabs_Qlt_condition in Hc.
  rewrite (liftAt_above this (20 + delta / 2)) in Hc
    by qlra.
  rewrite (liftAt_stall this 20) in Hc by lra.
  rewrite peak_unfold in Hc.
  destruct (baseOffset_cases this) as [B | B]; rewrite B in Hc; qlra.
Qed.


(** C1 (as the code has it).  For every airfoil object, whatever its
    type: the lift coefficient is -0.5 for every angle below -10 degrees
    and 0.5 for every angle above 20 degrees; on [-10, 15] it is the
    camber offset plus 0.1 per degree; it is continuous at 15 degrees; on
    (15, 20] it decays linearly from the value at 15 degrees by the
    absolute amount 0.8 * (alpha - 15) / 5, so by 0.8 at 20 degrees; and
    its values at the two other breakpoints are offset - 1 at -10 degrees
    and offset + 0.7 at 20 degrees, which are not the plateau values. *)
Theorem C1_lift_coefficient_pieces (this : fields) :
  (forall alpha, alpha < -10 -> liftAt this alpha == -0.5) /\
  (forall alpha, 20 < alpha -> liftAt this alpha == 0.5) /\
  (forall alpha, -10 <= alpha <= 15 ->
     liftAt this alpha == baseOffset this + 0.1 * alpha) /\
  continuous_at (liftAt this) 15 /\
  (forall alpha, 15 < alpha <= 20 ->
     liftAt this alpha == liftAt this 15 - 0.8 * ((alpha - 15) / 5)) /\
  liftAt this (-10) == baseOffset this - 1 /\
  liftAt this 20 == baseOffset this + 0.7.
Proof.
  assert (H15 : liftAt this 15 == peak this).
  { rewrite liftAt_linear by lra. unfold peak. reflexivity. }
  repeat split.
  - apply liftAt_below.
  - apply liftAt_above.
  - intros alpha H. apply liftAt_linear, H.
  - apply liftAt_continuous_15.
  - intros alpha H. rewrite H15. apply liftAt_stall, H.
  - rewrite liftAt_linear by lra. lra.
  - rewrite liftAt_stall by lra. rewrite peak_unfold. qlra.
Qed.

Lemma C1_lift_coefficient_pieces_witness :
  liftAt (wing "cambered") (-12) == -0.5 /\
  liftAt (wing "cambered") 25 == 0.5 /\
  liftAt (wing "cambered") 3 == baseOffset (wing "cambered") + 0.1 * 3 /\
  liftAt (wing "cambered") 18
    == liftAt (wing "cambered") 15 - 0.8 * ((18 - 15) / 5).
Proof.
  destruct (C1_lift_coefficient_pieces (wing "cambered"))
    as (Below & Above & Linear & _ & Stall & _).
  split; [apply Below; lra|].
  split; [apply Above; lra|].
  split; [apply Linear; lra|].
  apply Stall; lra.
Defined.

(** C1 (as stated) fails: for each of the three airfoil types the
    coefficient is discontinuous at -10 degrees and at 20 degrees, and at
    20 degrees it has not dropped by 80% of the peak (for the cambered
    type it is 0.9 where 20% of the peak 1.7 is 0.34). *)
Lemma C1_counterexample :
  ~ continuous_at (liftAt (wing "cambered")) (-10) /\
  ~ continuous_at (liftAt (wing "cambered")) 20 /\
  ~ continuous_at (liftAt (wing "symmetric")) (-10) /\
  ~ continuous_at (liftAt (wing "symmetric")) 20 /\
  ~ continuous_at (liftAt (wing "flat")) (-10) /\
  ~ continuous_at (liftAt (wing "flat")) 20 /\
  liftAt (wing "cambered") 20 == 0.9 /\
  peak (wing "cambered") - 0.8 * peak (wing "cambered") == 0.34 /\
  ~ liftAt (wing "cambered") 20
    == peak (wing "cambered") - 0.8 * peak (wing "cambered").
Proof.
  repeat split;
    try apply liftAt_jump_minus10; try apply liftAt_jump_20.
  intro H. vm_compute in H. discriminate H.
Qed.

End AirfoilSpec.

Module BernoulliSpec.
Import Host Bernoulli.

Section Geometry.
Variable e : env.
Variable f : fields.
Hypothesis geometry : venturi f.
Hypothesis canvas : visible e f.

Lemma pixelWidth_pos : 0 < pixelWidth e f.
Proof.
  destruct canvas as (W & _ & R). unfold pixelWidth.
  apply Qlt_shift_div_l; [assumption | lra].
Qed.

Lemma pixelHeight_pos : 0 < pixelHeight e f.
Proof.
  destruct canvas as (_ & H & R). unfold pixelHeight.
  apply Qlt_shift_div_l; [assumption | lra].
Qed.

(** The height of the channel in its three zones, in terms of the
    normalised position. *)
Lemma localHeight_zones x :
  let n := x / pixelWidth e f in
  (n < 0.35 ->
     localHeight e f x == (0.4 - 0.2 * (n / 0.35)) * pixelHeight e f) /\
  (0.35 <= n <= 0.65 -> localHeight e f x == 0.2 * pixelHeight e f) /\
  (0.65 < n ->
     localHeight e f x
       == (0.2 + 0.2 * ((n - 0.65) / (1 - 0.65))) * pixelHeight e f).
Proof.
  intro n. unfold localHeight, getTubeHeightAt. fold n.
  destruct geometry as [_ _ -> -> -> -> -> ->].
  repeat split; intro H.
  - cmp (Js.ltb n 0.35); [|lra]. cbn [top bottom]. ring.
  - cmp (Js.ltb n 0.35); [lra|].
    cmp (Js.leb 0.35 n); [|lra]. cmp (Js.leb n 0.65); [|lra].
    cbn [top bottom andb]. ring.
  - cmp (Js.ltb n 0.35); [lra|].
    cmp (Js.leb 0.35 n); [|lra]. cmp (Js.leb n 0.65); [lra|].
    cbn [top bottom andb]. ring.
Qed.

(** The channel is nowhere narrower than the throat. *)
Lemma localHeight_ge_throat x : 0.2 * pixelHeight e f <= localHeight e f x.
Proof.
  pose proof pixelHeight_pos as P.
  destruct (localHeight_zones x) as (Z1 & Z2 & Z3).
  set (n := x / pixelWidth e f) in *.
  destruct (Qlt_le_dec n 0.35) as [L | L].
  - rewrite (Z1 L).
    assert (n / 0.35 < 1) by qlra.
    nra.
  - destruct (Qlt_le_dec 0.65 n) as [R | R].
    + rewrite (Z3 R).
      assert (0 < (n - 0.65) / (1 - 0.65))
        by (apply Qlt_shift_div_l; lra).
      nra.
    + rewrite Z2 by lra. lra.
Qed.

Lemma localHeight_pos x : 0 < localHeight e f x.
Proof.
  pose proof pixelHeight_pos. pose proof (localHeight_ge_throat x). lra.
Qed.

Lemma entranceHeight_unfold : entranceHeight e f == 0.4 * pixelHeight e f.
Proof.
  unfold entranceHeight. destruct geometry as [_ _ -> -> _ _ _ _]. ring.
Qed.

Lemma getVelocityAt_unfold x :
  getVelocityAt e f x
  = baseVelocity f * (entranceHeight e f / localHeight e f x).
Proof. reflexivity. Qed.

Lemma getPressureAt_unfold x :
  getPressureAt e f x
  == totalPressure f
     - 0.5 * 1.225 * (getVelocityAt e f x * getVelocityAt e f x).
Proof.
  unfold getPressureAt, totalPressure, Js.pow2.
  destruct geometry as [-> _ _ _ _ _ _ _]. reflexivity.
Qed.

Lemma totalPressure_unfold :
  totalPressure f
  == 101325 + 0.5 * 1.225 * (baseVelocity f * baseVelocity f).
Proof.
  unfold totalPressure, Js.pow2.
  destruct geometry as [-> -> _ _ _ _ _ _]. reflexivity.
Qed.

(** Normalised positions of the three pressure indicators. *)
Lemma entranceX_normalised : entranceX e f / pixelWidth e f == 0.15.
Proof.
  pose proof pixelWidth_pos. unfold entranceX. field; lra.
Qed.

Lemma throatX_normalised : throatX e f / pixelWidth e f == 0.5.
Proof.
  pose proof pixelWidth_pos. unfold throatX. field; lra.
Qed.


Lemma localHeight_entrance :
  localHeight e f (entranceX e f) == (11 # 35) * pixelHeight e f.
Proof.
  destruct (localHeight_zones (entranceX e f)) as (Z & _ & _).
  cbv zeta in Z. rewrite Z by (rewrite entranceX_normalised; lra).
  rewrite entranceX_normalised. field.
Qed.

Lemma localHeight_throat :
  localHeight e f (throatX e f) == 0.2 * pixelHeight e f.
Proof.
  destruct (localHeight_zones (throatX e f)) as (_ & Z & _).
  cbv zeta in Z. rewrite Z by (rewrite throatX_normalised; lra).
  reflexivity.
Qed.


(** Local speeds at the three indicators. *)
Lemma velocity_entrance :
  getVelocityAt e f (entranceX e f) == baseVelocity f * (14 # 11).
Proof.
  pose proof pixelHeight_pos.
  rewrite getVelocityAt_unfold, entranceHeight_unfold, localHeight_entrance.
  field; lra.
Qed.

Lemma velocity_throat :
  getVelocityAt e f (throatX e f) == baseVelocity f * 2.
Proof.
  pose proof pixelHeight_pos.
  rewrite getVelocityAt_unfold, entranceHeight_unfold, localHeight_throat.
  field; lra.
Qed.


(** At the inlet itself the local speed is the reference speed. *)
Lemma velocity_inlet : getVelocityAt e f 0 == baseVelocity f.
Proof.
  pose proof pixelHeight_pos. pose proof pixelWidth_pos.
  destruct (localHeight_zones 0) as (Z & _ & _). cbv zeta in Z.
  assert (N : 0 / pixelWidth e f == 0) by (field; lra).
  rewrite getVelocityAt_unfold, entranceHeight_unfold.
  rewrite Z by (rewrite N; lra). rewrite N. field; lra.
Qed.

End Geometry.

(** The sample positions named in the statements are the ones
    [drawPressureIndicators] reads. *)
Lemma indicatorPositions_samples e f :
  map fst (indicatorPositions e f) = [entranceX e f; throatX e f; exitX e f].
Proof. reflexivity. Qed.

(** [duct 50] is the object the constructor builds on the demo page when
    no option is given, its particles set aside. *)
Lemma constructed_duct :
  exists f w,
    new "bernoulli-canvas"
      {| opt_baseVelocity := None; opt_particleCount := None |}
      demoPage boot
    = (Returned tt, Live f, w) /\
    set_particles [] f = duct 50.
Proof.
  eexists. eexists. split.
  - vm_compute. reflexivity.
  - reflexivity.
Qed.

Lemma duct_venturi v : venturi (duct v).
Proof. constructor; reflexivity. Qed.

Lemma duct_visible v : visible demoPage (duct v).
Proof. repeat split. Qed.





(** C5 (as the code has it).  With reference speed 50 the total pressure
    is 101325 plus the dynamic pressure at 50 m/s; the pressure at the
    entrance sample is that total minus the dynamic pressure at the local
    speed there, 50 * 14/11 m/s; at the inlet x = 0, where the local
    speed is 50, the pressure is 101325; and the pressure at the throat
    sample is strictly lower than at the entrance sample. *)
Theorem C5_pressures_at_50 (e : env) (f : fields) :
  venturi f -> visible e f -> baseVelocity f == 50 ->
  totalPressure f == 101325 + 0.5 * 1.225 * (50 * 50) /\
  getPressureAt e f (entranceX e f)
  == 101325 + 0.5 * 1.225 * (50 * 50)
     - 0.5 * 1.225 * ((50 * (14 # 11)) * (50 * (14 # 11))) /\
  getPressureAt e f 0 == 101325 /\
  getPressureAt e f (throatX e f) < getPressureAt e f (entranceX e f).
Proof.
  intros G C V.
  assert (T : totalPressure f == 101325 + 0.5 * 1.225 * (50 * 50)).
  { rewrite (totalPressure_unfold f G), V. reflexivity. }
  repeat split.
  - exact T.
  - rewrite (getPressureAt_unfold e f G), T.
    rewrite (velocity_entrance e f G C), V. reflexivity.
  - rewrite (getPressureAt_unfold e f G), T.
    rewrite (velocity_inlet e f G C), V. ring.
  - rewrite !(getPressureAt_unfold e f G).
    rewrite (velocity_throat e f G C), (velocity_entrance e f G C), V.
    lra.
Qed.

Lemma C5_pressures_at_50_witness :
  venturi (duct 50) /\ visible demoPage (duct 50) /\
  baseVelocity (duct 50) == 50 /\
  getPressureAt demoPage (duct 50) 0 == 101325.
Proof.
  split; [apply duct_venturi|]. split; [apply duct_visible|].
  split; [reflexivity|].
  apply (C5_pressures_at_50 demoPage (duct 50)).
  - constructor; reflexivity.
  - repeat split.
  - reflexivity.
Defined.

(** C5 (as stated) fails: at reference speed 50 the entrance sample does
    not read 101325 + 0.5 * 1.225 * 50^2 = 102856.25; that is the total
    pressure, and the sample reads it less the local dynamic pressure. *)
Lemma C5_counterexample :
  baseVelocity (duct 50) == 50 /\
  101325 + 0.5 * 1.225 * (50 * 50) == 102856.25 /\
  getPressureAt demoPage (duct 50) (entranceX demoPage (duct 50))
  < 100376 /\
  ~ getPressureAt demoPage (duct 50) (entranceX demoPage (duct 50))
    == 101325 + 0.5 * 1.225 * (50 * 50).
Proof.
  split; [reflexivity|]. split; [reflexivity|]. split; [reflexivity|].
  intro H. vm_compute in H. discriminate H.
Qed.

End BernoulliSpec.

(** ** Runs of the monad that always return *)

Module HostFacts.
Import Host.

Lemma repeatM_returns {S A} (body : M S A) (e : env) :
  (forall s w, exists a w', body e s w = (Returned a, s, w')) ->
  forall n s w, exists l w', repeatM n body e s w = (Returned l, s, w').
Proof.
  intros B n. induction n as [|n IH]; intros s w; simpl.
  - exists [], w. reflexivity.
  - unfold bind at 1. destruct (B s w) as (a & w1 & ->).
    unfold bind at 1. destruct (IH s w1) as (l & w2 & ->).
    exists (a :: l), w2. reflexivity.
Qed.

End HostFacts.

Module LifecycleSpec.
Import Host.

Lemma spawn_returns {S} f e (s : S) w :
  exists p w', Bernoulli.spawn f e s w = (Returned p, s, w').
Proof.
  cbv [Bernoulli.spawn bind ask random ret].
  eexists. eexists. reflexivity.
Qed.

Lemma createParticles_returns {S} f e (s : S) w :
  exists ps w',
    Bernoulli.createParticles f e s w
    = (Returned (Bernoulli.set_particles ps f), s, w').
Proof.
  unfold Bernoulli.createParticles, bind.
  destruct (HostFacts.repeatM_returns (Bernoulli.spawn f) e
              (fun s w => spawn_returns f e s w)
              (Z.to_nat (Qceiling (Bernoulli.particleCount f))) s w)
    as (ps & w' & ->).
  exists ps, w'. reflexivity.
Qed.

(** On a page that has the canvas, the Bernoulli constructor returns an
    initialised object with the documented constants. *)
Lemma Bernoulli_new_live e canvasId canvas o w :
  getElementById e canvasId = Some canvas ->
  exists f w',
    Bernoulli.new canvasId o e w = (Returned tt, Bernoulli.Live f, w') /\
    Bernoulli.venturi f /\
    Bernoulli.width f = canvas_width canvas /\
    Bernoulli.height f = canvas_height canvas /\
    Bernoulli.baseVelocity f = Js.or_num (Bernoulli.opt_baseVelocity o) 50 /\
    Bernoulli.particleCount f
      = Js.or_num (Bernoulli.opt_particleCount o) 150 /\
    Bernoulli.isRunning f = false.
Proof.
  intro H.
  unfold Bernoulli.new, Bernoulli.constructor, bind, ask. rewrite H.
  unfold now, Bernoulli.init, bind.
  match goal with
  | |- context [Bernoulli.createParticles ?f0 e ?s0 ?w0] =>
      destruct (createParticles_returns f0 e s0 w0) as (ps & w' & ->)
  end.
  eexists. eexists. split; [reflexivity|].
  split; [constructor; reflexivity|].
  repeat split.
Qed.

Lemma Airfoil_new_live e canvasId canvas o w :
  getElementById e canvasId = Some canvas ->
  exists f w',
    Airfoil.new canvasId o e w = (Returned tt, Some f, w') /\
    Airfoil.angleOfAttack f = Js.or_num (Airfoil.opt_angleOfAttack o) 5 /\
    Airfoil.airfoilType f
      = Js.or_str (Airfoil.opt_airfoilType o) "cambered".
Proof.
  intro H.
  unfold Airfoil.new, Airfoil.constructor, bind, ask. rewrite H.
  cbv [Airfoil.createStreamlines Airfoil.streamlinesFrom Airfoil.draw
       Airfoil.resetPosition Airfoil.streamlineCount
       bind ask random ret put paint
       clock_reads random_draws console_errors frames_requested
       frames_cancelled repaints].
  eexists. eexists. split; [reflexivity|]. split; reflexivity.
Qed.

Lemma Forces_new_live e canvasId canvas o w :
  getElementById e canvasId = Some canvas ->
  exists f w',
    Forces.new canvasId o e w = (Returned tt, Some f, w') /\
    Forces.lift f = Js.or_num (Forces.opt_lift o) 50 /\
    Forces.weight f = Js.or_num (Forces.opt_weight o) 50 /\
    Forces.thrust f = Js.or_num (Forces.opt_thrust o) 50 /\
    Forces.drag f = Js.or_num (Forces.opt_drag o) 50 /\
    Forces.verticalVelocity f = 0 /\
    Forces.horizontalVelocity f = 0.
Proof.
  intro H.
  unfold Forces.new, Forces.constructor, bind, ask. rewrite H.
  cbv [Forces.draw bind now put paint
       clock_reads random_draws console_errors frames_requested
       frames_cancelled repaints].
  eexists. eexists. split; [reflexivity|]. repeat split.
Qed.

Lemma Controls_new_live e canvasId canvas o w :
  getElementById e canvasId = Some canvas ->
  exists f w',
    Controls.new canvasId o e w = (Returned tt, Controls.Live f, w') /\
    Controls.aileronDeflection f
      = Js.or_num (Controls.opt_aileronDeflection o) 0 /\
    Controls.elevatorDeflection f
      = Js.or_num (Controls.opt_elevatorDeflection o) 0 /\
    Controls.rudderDeflection f
      = Js.or_num (Controls.opt_rudderDeflection o) 0 /\
    Controls.rollAngle f = 0 /\
    Controls.pitchAngle f = 0 /\
    Controls.yawAngle f = 0.
Proof.
  intro H.
  unfold Controls.new, Controls.constructor, bind, ask. rewrite H.
  cbv [Controls.init Controls.draw bind ask get put paint
       clock_reads random_draws console_errors frames_requested
       frames_cancelled repaints].
  eexists. eexists. split; [reflexivity|]. repeat split.
Qed.

Lemma or_num_zero d : Js.or_num (Some 0) d = Js.or_num None d.
Proof. reflexivity. Qed.

(** C9.  On a page that has the canvas, an option given as the number 0
    is replaced by the documented default: Bernoulli gets baseVelocity 50
    and particleCount 150, Airfoil gets angleOfAttack 5, Forces gets 50
    for each of lift, weight, thrust and drag, and the control deflections
    (default 0) stay 0; in each case the constructor does exactly what it
    does when the option is absent. *)
Theorem C9_zero_option_yields_default
  (e : env) (canvasId : string) (canvas : canvas) (w : world) :
  getElementById e canvasId = Some canvas ->
  (exists f w',
     Bernoulli.new canvasId
       {| Bernoulli.opt_baseVelocity := Some 0;
          Bernoulli.opt_particleCount := Some 0 |} e w
     = (Returned tt, Bernoulli.Live f, w') /\
     Bernoulli.baseVelocity f = 50 /\ Bernoulli.particleCount f = 150) /\
  (exists f w',
     Airfoil.new canvasId
       {| Airfoil.opt_angleOfAttack := Some 0;
          Airfoil.opt_airfoilType := None |} e w
     = (Returned tt, Some f, w') /\
     Airfoil.angleOfAttack f = 5) /\
  (exists f w',
     Forces.new canvasId
       {| Forces.opt_lift := Some 0; Forces.opt_weight := Some 0;
          Forces.opt_thrust := Some 0; Forces.opt_drag := Some 0 |} e w
     = (Returned tt, Some f, w') /\
     Forces.lift f = 50 /\ Forces.weight f = 50 /\
     Forces.thrust f = 50 /\ Forces.drag f = 50) /\
  (exists f w',
     Controls.new canvasId
       {| Controls.opt_aileronDeflection := Some 0;
          Controls.opt_elevatorDeflection := Some 0;
          Controls.opt_rudderDeflection := Some 0 |} e w
     = (Returned tt, Controls.Live f, w') /\
     Controls.aileronDeflection f = 0 /\
     Controls.elevatorDeflection f = 0 /\
     Controls.rudderDeflection f = 0) /\
  Bernoulli.new canvasId
    {| Bernoulli.opt_baseVelocity := Some 0;
       Bernoulli.opt_particleCount := Some 0 |} e w
  = Bernoulli.new canvasId
      {| Bernoulli.opt_baseVelocity := None;
         Bernoulli.opt_particleCount := None |} e w /\
  Airfoil.new canvasId
    {| Airfoil.opt_angleOfAttack := Some 0;
       Airfoil.opt_airfoilType := None |} e w
  = Airfoil.new canvasId
      {| Airfoil.opt_angleOfAttack := None;
         Airfoil.opt_airfoilType := None |} e w /\
  Forces.new canvasId
    {| Forces.opt_lift := Some 0; Forces.opt_weight := Some 0;
       Forces.opt_thrust := Some 0; Forces.opt_drag := Some 0 |} e w
  = Forces.new canvasId
      {| Forces.opt_lift := None; Forces.opt_weight := None;
         Forces.opt_thrust := None; Forces.opt_drag := None |} e w.
Proof.
  intro H. repeat apply conj.
  - destruct (Bernoulli_new_live e canvasId canvas
                {| Bernoulli.opt_baseVelocity := Some 0;
                   Bernoulli.opt_particleCount := Some 0 |} w H)
      as (f & w' & R & _ & _ & _ & V & P & _).
    exists f, w'. repeat split; assumption.
  - destruct (Airfoil_new_live e canvasId canvas
                {| Airfoil.opt_angleOfAttack := Some 0;
                   Airfoil.opt_airfoilType := None |} w H)
      as (f & w' & R & A & _).
    exists f, w'. split; assumption.
  - destruct (Forces_new_live e canvasId canvas
                {| Forces.opt_lift := Some 0; Forces.opt_weight := Some 0;
                   Forces.opt_thrust := Some 0;
                   Forces.opt_drag := Some 0 |} w H)
      as (f & w' & R & L & W & T & D & _).
    exists f, w'. repeat split; assumption.
  - destruct (Controls_new_live e canvasId canvas
                {| Controls.opt_aileronDeflection := Some 0;
                   Controls.opt_elevatorDeflection := Some 0;
                   Controls.opt_rudderDeflection := Some 0 |} w H)
      as (f & w' & R & A & E & U & _).
    exists f, w'. repeat split; assumption.
  - unfold Bernoulli.new, Bernoulli.constructor.
    cbn [Bernoulli.opt_baseVelocity Bernoulli.opt_particleCount].
    rewrite !or_num_zero. reflexivity.
  - unfold Airfoil.new, Airfoil.constructor.
    cbn [Airfoil.opt_angleOfAttack Airfoil.opt_airfoilType].
    rewrite !or_num_zero. reflexivity.
  - unfold Forces.new, Forces.constructor.
    cbn [Forces.opt_lift Forces.opt_weight Forces.opt_thrust
         Forces.opt_drag].
    rewrite !or_num_zero. reflexivity.
Qed.

Lemma C9_zero_option_yields_default_witness :
  getElementById demoPage "bernoulli-canvas"
  = Some {| canvas_width := 800; canvas_height := 400 |} /\
  exists f w',
    Bernoulli.new "bernoulli-canvas"
      {| Bernoulli.opt_baseVelocity := Some 0;
         Bernoulli.opt_particleCount := Some 0 |} demoPage boot
    = (Returned tt, Bernoulli.Live f, w') /\
    Bernoulli.baseVelocity f = 50 /\ Bernoulli.particleCount f = 150.
Proof.
  split; [reflexivity|].
  apply (C9_zero_option_yields_default demoPage "bernoulli-canvas"
           {| canvas_width := 800; canvas_height := 400 |} boot).
  reflexivity.
Defined.

(** C8.  On an initialised control-surfaces object, setControls returns
    normally, stores the three deflections and sets the indicators to
    roll = -aileron * 0.8, pitch = -elevator * 0.5, yaw = rudder * 0.6;
    setControls(10, 0, 0) gives rollAngle -8 and leaves the pitch and yaw
    indicators at 0. *)
Theorem C8_setControls_gains (e : env) (f : Controls.fields) (w : world) :
  (forall aileron elevator rudder,
     exists f' w',
       Controls.setControls aileron elevator rudder e (Controls.Live f) w
       = (Returned tt, Controls.Live f', w') /\
       Controls.aileronDeflection f' = aileron /\
       Controls.elevatorDeflection f' = elevator /\
       Controls.rudderDeflection f' = rudder /\
       Controls.rollAngle f' == - aileron * 0.8 /\
       Controls.pitchAngle f' == - elevator * 0.5 /\
       Controls.yawAngle f' == rudder * 0.6) /\
  (exists f' w',
     Controls.setControls 10 0 0 e (Controls.Live f) w
     = (Returned tt, Controls.Live f', w') /\
     Controls.rollAngle f' == -8 /\
     Controls.pitchAngle f' == 0 /\
     Controls.yawAngle f' == 0).
Proof.
  split.
  - intros aileron elevator rudder.
    eexists. eexists. split; [reflexivity|].
    cbn. repeat split; reflexivity.
  - eexists. eexists. split; [reflexivity|].
    cbn. repeat split; reflexivity.
Qed.

(** C6 (as the code has it).  When the canvas is missing, each of the six
    constructors returns without throwing, logs the condition on the
    console and initialises nothing.  The object is not inert.  On the
    Bernoulli object stop() and destroy() return normally, stop() having
    assigned isRunning; setVelocity(v) and start() throw a TypeError, and
    setVelocity(v) has stored v before it throws.  On the control-surfaces
    object destroy() does nothing, and setControls and reset() throw a
    TypeError. *)
Theorem C6_missing_canvas
  (e : env) (canvasId : string) (w : world)
  (bo : Bernoulli.options) (co : Controls.options)
  (fo : Forces.options) (ao : Airfoil.options) :
  getElementById e canvasId = None ->
  (Bernoulli.new canvasId bo e w
   = (Returned tt, Bernoulli.fresh, logged canvasId w) /\
   Controls.new canvasId co e w
   = (Returned tt, Controls.fresh, logged canvasId w) /\
   Forces.new canvasId fo e w = (Returned tt, None, logged canvasId w) /\
   Airfoil.new canvasId ao e w = (Returned tt, None, logged canvasId w) /\
   Phases.new canvasId e w = (Returned tt, None, logged canvasId w) /\
   Intro.new canvasId e w = (Returned tt, None, logged canvasId w)) /\
  (forall w1,
     threw (Bernoulli.stop e Bernoulli.fresh w1) = false /\
     threw (Bernoulli.destroy e Bernoulli.fresh w1) = false /\
     this_after (Bernoulli.stop e Bernoulli.fresh w1)
     = Bernoulli.set_isRunning false Bernoulli.fresh /\
     threw (Bernoulli.start e Bernoulli.fresh w1) = true) /\
  (forall v w1,
     threw (Bernoulli.setVelocity v e Bernoulli.fresh w1) = true /\
     this_after (Bernoulli.setVelocity v e Bernoulli.fresh w1)
     = Bernoulli.set_baseVelocity v Bernoulli.fresh) /\
  (forall w1,
     Controls.destroy e Controls.fresh w1
     = (Returned tt, Controls.fresh, w1) /\
     threw (Controls.reset e Controls.fresh w1) = true) /\
  (forall aileron elevator rudder w1,
     threw (Controls.setControls aileron elevator rudder
              e Controls.fresh w1) = true).
Proof.
  intro H. repeat apply conj.
  - unfold Bernoulli.new, Bernoulli.constructor, bind, ask. rewrite H.
    reflexivity.
  - unfold Controls.new, Controls.constructor, bind, ask. rewrite H.
    reflexivity.
  - unfold Forces.new, Forces.constructor, bind, ask. rewrite H.
    reflexivity.
  - unfold Airfoil.new, Airfoil.constructor, bind, ask. rewrite H.
    reflexivity.
  - unfold Phases.new, Phases.constructor, bind, ask. rewrite H.
    reflexivity.
  - unfold Intro.new, Intro.constructor, bind, ask. rewrite H.
    reflexivity.
  - intro w1. repeat split.
  - intros v w1. split; reflexivity.
  - intro w1. split; reflexivity.
  - intros aileron elevator rudder w1. reflexivity.
Qed.

Lemma C6_missing_canvas_witness :
  getElementById emptyPage "bernoulli-canvas" = None /\
  Bernoulli.new "bernoulli-canvas"
    {| Bernoulli.opt_baseVelocity := None;
       Bernoulli.opt_particleCount := None |} emptyPage boot
  = (Returned tt, Bernoulli.fresh, logged "bernoulli-canvas" boot).
Proof.
  split; [reflexivity|].
  apply (C6_missing_canvas emptyPage "bernoulli-canvas" boot
           {| Bernoulli.opt_baseVelocity := None;
              Bernoulli.opt_particleCount := None |}
           {| Controls.opt_aileronDeflection := None;
              Controls.opt_elevatorDeflection := None;
              Controls.opt_rudderDeflection := None |}
           {| Forces.opt_lift := None; Forces.opt_weight := None;
              Forces.opt_thrust := None; Forces.opt_drag := None |}
           {| Airfoil.opt_angleOfAttack := None;
              Airfoil.opt_airfoilType := None |}).
  reflexivity.
Defined.

(** C6 (as stated) fails: after a Bernoulli simulator is constructed on a
    page without its canvas (no throw, one console line), setVelocity(60)
    throws and leaves baseVelocity assigned; likewise setControls(10, 0, 0)
    throws on a control-surfaces simulator constructed without its
    canvas. *)
Lemma C6_counterexample :
  let b := Bernoulli.new "bernoulli-canvas"
             {| Bernoulli.opt_baseVelocity := None;
                Bernoulli.opt_particleCount := None |} emptyPage boot in
  let c := Controls.new "controls-canvas"
             {| Controls.opt_aileronDeflection := None;
                Controls.opt_elevatorDeflection := None;
                Controls.opt_rudderDeflection := None |} emptyPage boot in
  threw b = false /\
  console_errors (world_after b) = [notFound "bernoulli-canvas"] /\
  threw (Bernoulli.setVelocity 60 emptyPage (this_after b) (world_after b))
  = true /\
  this_after
    (Bernoulli.setVelocity 60 emptyPage (this_after b) (world_after b))
  <> this_after b /\
  threw c = false /\
  threw (Controls.setControls 10 0 0 emptyPage
           (this_after c) (world_after c)) = true.
Proof.
  cbv zeta. repeat split. intro H. discriminate H.
Qed.

End LifecycleSpec.

Module ForcesSpec.
Import Host Forces.










End ForcesSpec.

Module PhasesSpec.
Import Host Phases.

Lemma setPhase_run phase e f w :
  exists a t w',
    setPhase phase e f w
    = (Returned tt,
       set_airplane a (set_phaseStartTime t (set_phase phase 0 f)), w') /\
    (~ In phase theSequence ->
     targetX a = targetX (airplane f) /\
     targetY a = targetY (airplane f) /\
     targetRotation a = targetRotation (airplane f) /\
     targetVelocity a = targetVelocity (airplane f)).
Proof.
  cbv [setPhase bind ask modify now get put].
  eexists. eexists. eexists. split; [reflexivity|].
  intro N. cbn [airplane set_phase set_phaseStartTime set_autoPlay].
  assert (E : forall s, In s theSequence -> String.eqb phase s = false).
  { intros s I. apply String.eqb_neq. intros ->. exact (N I). }
  rewrite !E by (cbn; tauto).
  destruct (Qeq_bool (x (airplane f)) 0 && Qeq_bool (y (airplane f)) 0);
    repeat split.
Qed.

(** C10.  For a name outside the five phases, setPhase returns normally,
    makes that name the current phase, resets the progress to 0 and
    leaves targetX, targetY, targetRotation and targetVelocity as they
    were. *)
Theorem C10_setPhase_unknown_name
  (e : env) (f : fields) (w : world) (name : string) :
  ~ In name theSequence ->
  exists f' w',
    setPhase name e f w = (Returned tt, f', w') /\
    currentPhase f' = name /\
    phaseProgress f' = 0 /\
    targetX (airplane f') = targetX (airplane f) /\
    targetY (airplane f') = targetY (airplane f) /\
    targetRotation (airplane f') = targetRotation (airplane f) /\
    targetVelocity (airplane f') = targetVelocity (airplane f).
Proof.
  intro N. destruct (setPhase_run name e f w) as (a & t & w' & R & T).
  eexists. exists w'. split; [exact R|].
  split; [reflexivity|]. split; [reflexivity|].
  cbn [airplane set_airplane]. exact (T N).
Qed.

Lemma C10_setPhase_unknown_name_witness :
  ~ In "taxi" theSequence /\
  exists f' w',
    setPhase "taxi" demoPage (this_after demoFlight) boot
    = (Returned tt, f', w') /\
    currentPhase f' = "taxi" /\
    phaseProgress f' = 0 /\
    targetX (airplane f') = targetX (airplane (this_after demoFlight)) /\
    targetY (airplane f') = targetY (airplane (this_after demoFlight)) /\
    targetRotation (airplane f')
    = targetRotation (airplane (this_after demoFlight)) /\
    targetVelocity (airplane f')
    = targetVelocity (airplane (this_after demoFlight)).
Proof.
  assert (N : ~ In "taxi" theSequence).
  { cbn. intros [H | [H | [H | [H | [H | []]]]]]; discriminate H. }
  split; [exact N|].
  exact (C10_setPhase_unknown_name demoPage (this_after demoFlight) boot
           "taxi" N).
Defined.

(** [update] always returns; it keeps the sequence and the auto-play
    flag, and it moves to the next index and phase exactly when the phase
    is due. *)
Lemma dueb_due e f w : dueb e f w = true <-> due e f w.
Proof.
  unfold dueb, due. rewrite andb_true_iff, JsFacts.leb_le. tauto.
Qed.

Lemma update_run dt e f w :
  exists f' w',
    update dt e f w = (Returned tt, f', w') /\
    phaseSequence f' = phaseSequence f /\
    autoPlayEnabled f' = autoPlayEnabled f /\
    (due e f w ->
     currentPhaseIndex f'
     = ((currentPhaseIndex f + 1) mod List.length (phaseSequence f))%nat /\
     currentPhase f'
     = nth ((currentPhaseIndex f + 1) mod List.length (phaseSequence f))
           (phaseSequence f) "undefined") /\
    (~ due e f w ->
     currentPhaseIndex f' = currentPhaseIndex f /\
     currentPhase f' = currentPhase f).
Proof.
  destruct (dueb e f w) eqn:D.
  - pose proof (proj1 (dueb_due e f w) D) as Due.
    unfold dueb in D. apply andb_true_iff in D. destruct D as [A L].
    unfold update. unfold bind at 1. unfold get at 1.
    rewrite A. unfold bind at 1. unfold bind at 1. unfold bind at 1.
    unfold now at 1. cbv beta iota. rewrite L.
    unfold bind at 1. unfold modify at 1. cbv beta iota.
    match goal with
    | |- context [setPhase ?p e ?f0 ?w0] =>
        destruct (setPhase_run p e f0 w0) as (a & t & w1 & -> & _)
    end.
    cbv [bind now get put].
    eexists. eexists. split; [reflexivity|].
    cbn. repeat split; tauto.
  - assert (ND : ~ due e f w).
    { intro Due. apply dueb_due in Due. congruence. }
    unfold dueb in D. unfold update. unfold bind at 1. unfold get at 1.
    destruct (autoPlayEnabled f) eqn:A.
    + cbn [andb] in D.
      unfold bind at 1. unfold bind at 1. unfold bind at 1.
      unfold now at 1. cbv beta iota. rewrite D.
      cbv [bind now get put ret].
      eexists. eexists. split; [reflexivity|].
      cbn. repeat split; tauto.
    + cbv [bind now get put ret].
      eexists. eexists. split; [reflexivity|].
      cbn. repeat split; tauto.
Qed.

Lemma update_synced dt e f w f' w' :
  update dt e f w = (Returned tt, f', w') ->
  synced f ->
  synced f' /\
  (due e f w ->
   currentPhaseIndex f' = ((currentPhaseIndex f + 1) mod 5)%nat) /\
  (~ due e f w -> currentPhaseIndex f' = currentPhaseIndex f).
Proof.
  intros U (Q & I & P).
  destruct (update_run dt e f w) as (f1 & w1 & U1 & Q1 & _ & D1 & N1).
  rewrite U in U1. injection U1 as <- <-.
  rewrite Q in D1. cbn [List.length theSequence] in D1.
  destruct (dueb e f w) eqn:D.
  - apply dueb_due in D. destruct (D1 D) as [I1 P1].
    split; [|split; [intros _; exact I1 | intro N; contradiction]].
    split; [congruence|]. split.
    + rewrite I1. apply Nat.mod_upper_bound. lia.
    + rewrite P1, I1. reflexivity.
  - assert (N : ~ due e f w).
    { intro Due. apply dueb_due in Due. congruence. }
    destruct (N1 N) as [I1 P1].
    split; [|split; [intro Due; contradiction | intros _; exact I1]].
    split; [congruence|]. split; [rewrite I1; exact I|].
    rewrite P1, I1. exact P.
Qed.

(** After n advancements the index has moved n places round the cycle. *)
Lemma advanced_index e n c c' :
  advanced e n c c' ->
  synced (fst c) ->
  synced (fst c') /\
  currentPhaseIndex (fst c') = ((currentPhaseIndex (fst c) + n) mod 5)%nat.
Proof.
  induction 1 as [c | n f w w' c' A IH | n dt f w f' w' c' N U A IH
                 | n dt f w f' w' c' D U A IH]; intro S; cbn [fst] in *.
  - split; [exact S|]. destruct S as (_ & I & _).
    rewrite Nat.add_0_r, Nat.mod_small by exact I. reflexivity.
  - apply IH, S.
  - destruct (update_synced dt e f w f' w' U S) as (S' & _ & Same).
    destruct (IH S') as (S'' & I). split; [exact S''|].
    rewrite I, (Same N). reflexivity.
  - destruct (update_synced dt e f w f' w' U S) as (S' & Next & _).
    destruct (IH S') as (S'' & I). split; [exact S''|].
    rewrite I, (Next D), Nat.Div0.add_mod_idemp_l.
    f_equal. lia.
Qed.

(** A run in which every frame finds the phase due is a run of
    advancements. *)
Lemma allDue_advanced dt e n :
  forall f w,
    allDue n dt e f w = true ->
    advanced e n (f, w)
      (this_after (updates n dt e f w), world_after (updates n dt e f w)).
Proof.
  induction n as [|n IH]; intros f w H; cbn [allDue updates] in *.
  - apply adv_done.
  - apply andb_true_iff in H. destruct H as [D H].
    apply dueb_due in D.
    destruct (update_run dt e f w) as (f1 & w1 & U & _).
    rewrite U in H. unfold bind at 1 2. rewrite U.
    apply (adv_step e n dt f w f1 w1 _ D U).
    apply IH, H.
Qed.

(** C4 (as the code has it).  From cruise (index 2) with auto-play on,
    after n advancements the active phase is the one at index
    (2 + n) mod 5 of the cyclic order: landing after 2, takeoff after 3,
    climb after 4 and cruise again after 5. *)
Theorem C4_autoplay_cycle (e : env) (f : fields) (w : world) :
  currentPhase f = "cruise" ->
  currentPhaseIndex f = 2%nat ->
  autoPlayEnabled f = true ->
  phaseSequence f = theSequence ->
  forall n f' w',
    advanced e n (f, w) (f', w') ->
    currentPhase f' = nth ((2 + n) mod 5) theSequence "undefined" /\
    (n = 2%nat -> currentPhase f' = "landing") /\
    (n = 3%nat -> currentPhase f' = "takeoff") /\
    (n = 4%nat -> currentPhase f' = "climb") /\
    (n = 5%nat -> currentPhase f' = "cruise").
Proof.
  intros P I _ Q n f' w' A.
  assert (S : synced f).
  { split; [exact Q|]. rewrite I, P. split; [lia | reflexivity]. }
  destruct (advanced_index e n (f, w) (f', w') A S) as ((_ & _ & P') & I').
  cbn [fst] in *. rewrite I in I'. rewrite I' in P'.
  split; [exact P'|].
  repeat split; intros ->; exact P'.
Qed.

Lemma C4_autoplay_cycle_witness :
  currentPhase (this_after demoFlight) = "cruise" /\
  currentPhaseIndex (this_after demoFlight) = 2%nat /\
  autoPlayEnabled (this_after demoFlight) = true /\
  phaseSequence (this_after demoFlight) = theSequence /\
  advanced demoPage 4
    (this_after demoFlight, world_after demoFlight)
    (this_after (demoFlightAfter 4), world_after (demoFlightAfter 4)) /\
  currentPhase (this_after (demoFlightAfter 4)) = "climb".
Proof.
  assert (A : advanced demoPage 4
                (this_after demoFlight, world_after demoFlight)
                (this_after (demoFlightAfter 4),
                 world_after (demoFlightAfter 4))).
  { apply allDue_advanced. vm_compute. reflexivity. }
  do 4 (split; [reflexivity|]). split; [exact A|].
  apply (C4_autoplay_cycle demoPage (this_after demoFlight)
           (world_after demoFlight) eq_refl eq_refl eq_refl eq_refl
           4%nat _ _ A).
  reflexivity.
Defined.

(** C4 (as stated) fails: on the demo page the simulator is at cruise,
    index 2, with auto-play on; after 4 advancements it is at climb, not
    landing, and after 5 at cruise, not takeoff. *)
Lemma C4_counterexample :
  currentPhase (this_after demoFlight) = "cruise" /\
  currentPhaseIndex (this_after demoFlight) = 2%nat /\
  autoPlayEnabled (this_after demoFlight) = true /\
  allDue 5 0.016 demoPage (this_after demoFlight) (world_after demoFlight)
  = true /\
  currentPhase (this_after (demoFlightAfter 4)) = "climb" /\
  currentPhase (this_after (demoFlightAfter 4)) <> "landing" /\
  currentPhase (this_after (demoFlightAfter 5)) = "cruise" /\
  currentPhase (this_after (demoFlightAfter 5)) <> "takeoff".
Proof.
  do 3 (split; [reflexivity|]).
  split; [vm_compute; reflexivity|].
  split; [vm_compute; reflexivity|].
  split; [vm_compute; intro H; discriminate H|].
  split; [vm_compute; reflexivity|].
  vm_compute; intro H; discriminate H.
Qed.

End PhasesSpec.

(** ** More on the duct: shape, speed range, pressure range *)

Module DuctSpec.
Import Host Bernoulli BernoulliSpec.

Lemma tube_centred_at e f x :
  venturi f ->
  top (getTubeHeightAt e f x) + bottom (getTubeHeightAt e f x)
  == pixelHeight e f.
Proof.
  intro G. unfold getTubeHeightAt.
  destruct G as [_ _ -> -> -> -> -> ->].
  destruct (Js.ltb _ _); [cbn [top bottom]; ring|].
  destruct (_ && _); cbn [top bottom]; ring.
Qed.


Lemma normalised_range e f x :
  visible e f ->
  0 <= x <= pixelWidth e f -> 0 <= x / pixelWidth e f <= 1.
Proof.
  intros C [X0 X1]. pose proof (pixelWidth_pos e f C). split.
  - apply Qle_shift_div_l; [assumption | lra].
  - apply Qle_shift_div_r; [assumption | lra].
Qed.

(** Inside the duct the channel is never wider than the entrance. *)
Lemma localHeight_le_entrance e f x :
  venturi f -> visible e f ->
  0 <= x <= pixelWidth e f -> localHeight e f x <= 0.4 * pixelHeight e f.
Proof.
  intros G C X. destruct (normalised_range e f x C X) as [N0 N1].
  destruct (localHeight_zones e f G x) as (Z1 & Z2 & Z3).
  cbv zeta in *. set (n := x / pixelWidth e f) in *.
  pose proof (pixelHeight_pos e f C) as P.
  destruct (Qlt_le_dec n 0.35) as [L | L].
  - rewrite (Z1 L).
    assert (0 <= n / 0.35) by (apply Qle_shift_div_l; lra).
    nra.
  - destruct (Qlt_le_dec 0.65 n) as [R | R].
    + rewrite (Z3 R).
      assert ((n - 0.65) / (1 - 0.65) <= 1)
        by (apply Qle_shift_div_r; lra).
      nra.
    + rewrite Z2 by lra. lra.
Qed.


Lemma ratio_pos e f x : venturi f -> visible e f -> 0 < ratio e f x.
Proof.
  intros G C. unfold ratio.
  pose proof (localHeight_pos e f G C x) as Hp.
  pose proof (pixelHeight_pos e f C) as P.
  rewrite (entranceHeight_unfold e f G).
  apply Qlt_shift_div_l; [assumption | lra].
Qed.

Lemma getVelocityAt_ratio e f x :
  getVelocityAt e f x = baseVelocity f * ratio e f x.
Proof. reflexivity. Qed.





End DuctSpec.

(** ** What the Bernoulli canvas shows *)

Module FlowSpec.
Import Host Bernoulli BernoulliSpec DuctSpec.



Lemma pixelsPerSecond_ratio e f x :
  ~ baseVelocity f == 0 -> pixelsPerSecond e f x == 150 * ratio e f x.
Proof.
  intro B. unfold pixelsPerSecond. rewrite getVelocityAt_ratio.
  field. exact B.
Qed.








(** Loops whose body always returns keep an invariant of the elements. *)
Lemma repeatM_Forall {S A} (body : M S A) (e : env) (P : A -> Prop) :
  (forall s w, exists a w', body e s w = (Returned a, s, w') /\ P a) ->
  forall n s w,
    exists l w',
      repeatM n body e s w = (Returned l, s, w') /\
      List.length l = n /\ Forall P l.
Proof.
  intros B n. induction n as [|n IH]; intros s w; cbn [repeatM].
  - exists [], w. repeat split. constructor.
  - unfold bind at 1. destruct (B s w) as (a & w1 & -> & Pa).
    unfold bind at 1. destruct (IH s w1) as (l & w2 & -> & Len & All).
    exists (a :: l), w2. split; [reflexivity|].
    split; [cbn; congruence | constructor; assumption].
Qed.

Lemma mapM_Forall {S A B} (g : A -> M S B) (e : env)
      (P : A -> Prop) (R : A -> B -> Prop) :
  (forall a, P a ->
     forall s w, exists b w', g a e s w = (Returned b, s, w') /\ R a b) ->
  forall l, Forall P l ->
    forall s w,
      exists l' w',
        mapM g l e s w = (Returned l', s, w') /\ Forall2 R l l'.
Proof.
  intros G l All. induction All as [|a l Pa All IH]; intros s w;
    cbn [mapM].
  - exists [], w. split; [reflexivity | constructor].
  - unfold bind at 1. destruct (G a Pa s w) as (b & w1 & -> & Rb).
    unfold bind at 1. destruct (IH s w1) as (l' & w2 & -> & All').
    exists (b :: l'), w2. split; [reflexivity | constructor; assumption].
Qed.

(** Inside the duct the walls stay within the entrance envelope. *)
Lemma walls_in_envelope e f x :
  venturi f -> visible e f -> 0 <= x <= pixelWidth e f ->
  pixelHeight e f * 0.3 <= top (getTubeHeightAt e f x) /\
  top (getTubeHeightAt e f x) < bottom (getTubeHeightAt e f x) /\
  bottom (getTubeHeightAt e f x) <= pixelHeight e f * 0.7.
Proof.
  intros G C X.
  pose proof (tube_centred_at e f x G) as Cn.
  pose proof (localHeight_le_entrance e f x G C X) as Hu.
  pose proof (localHeight_pos e f G C x) as Hp.
  unfold localHeight in *. repeat split; lra.
Qed.

Lemma spawn_inside {S} e f (s : S) w :
  venturi f -> visible e f -> unitRandom e ->
  exists p w', spawn f e s w = (Returned p, s, w') /\ inside e f p.
Proof.
  intros G C U.
  cbv [spawn bind ask random ret].
  cbn [clock_reads random_draws console_errors frames_requested
       frames_cancelled repaints].
  eexists. eexists. split; [reflexivity|].
  unfold inside. cbn [x y baseY].
  pose proof (pixelWidth_pos e f C) as W.
  destruct (U (random_draws w)) as [R0 R1].
  destruct (U (Datatypes.S (random_draws w))) as [Y0 Y1].
  set (r := Math_random e (random_draws w)) in *.
  set (r' := Math_random e (Datatypes.S (random_draws w))) in *.
  assert (X : 0 <= r * pixelWidth e f <= pixelWidth e f) by (split; nra).
  destruct (walls_in_envelope e f _ G C X) as (T & TB & B).
  destruct G as [_ _ -> -> _ _ _ _].
  set (t := top (getTubeHeightAt e f (r * pixelWidth e f))) in *.
  set (b := bottom (getTubeHeightAt e f (r * pixelWidth e f))) in *.
  repeat split; try lra; nra.
Qed.

(** The walls at [x] and the height [update] gives a particle there. *)
Lemma lateral_inside e f x baseY0 :
  venturi f -> visible e f ->
  pixelHeight e f * tubeTop f <= baseY0 <= pixelHeight e f * tubeBottom f ->
  let s := getTubeHeightAt e f x in
  let tubeHeight := bottom s - top s in
  let centerY := (top s + bottom s) / 2 in
  let offset := (baseY0 - pixelHeight e f * tubeTop f) /
                (pixelHeight e f * (tubeBottom f - tubeTop f)) in
  top s <= centerY + (offset - 0.5) * tubeHeight * 0.8 <= bottom s.
Proof.
  intros G C B s tubeHeight centerY offset.
  pose proof (pixelHeight_pos e f C) as P.
  pose proof (localHeight_pos e f G C x) as Hp.
  unfold localHeight in Hp. fold s in Hp.
  assert (O : 0 <= offset <= 1).
  { unfold offset. destruct G as [_ _ Ht Hb _ _ _ _].
    rewrite Ht, Hb in *. split.
    - apply Qle_shift_div_l; lra.
    - apply Qle_shift_div_r; lra. }
  unfold centerY, tubeHeight.
  set (t := top s) in *. set (b := bottom s) in *.
  set (o := offset) in *.
  assert (E : (t + b) / 2 + (o - 0.5) * (b - t) * 0.8
              == t + (b - t) * (0.1 + 0.8 * o)) by field.
  rewrite E. split; nra.
Qed.

Lemma advance_inside {S} dt e f p (s : S) w :
  venturi f -> visible e f -> 0 <= dt -> ~ baseVelocity f == 0 ->
  inside e f p ->
  exists p' w',
    advance dt f p e s w = (Returned p', s, w') /\
    inside e f p' /\ baseY p' = baseY p.
Proof.
  intros G C D B (X & Y & BY).
  pose proof (pixelWidth_pos e f C) as W.
  pose proof (ratio_pos e f (x p) G C) as R.
  assert (PPS : getVelocityAt e f (x p) / baseVelocity f * 150
                == 150 * ratio e f (x p)).
  { exact (pixelsPerSecond_ratio e f (x p) B). }
  unfold advance. unfold bind at 1. unfold ask at 1. cbv beta iota zeta.
  set (x1 := x p + getVelocityAt e f (x p) / baseVelocity f * 150 * dt).
  assert (X1 : 0 <= x1).
  { unfold x1. rewrite PPS. nra. }
  destruct (Js.ltb (pixelWidth e f) x1) eqn:E.
  - cbv [bind random ret].
    eexists. eexists. split; [reflexivity|]. split; [|reflexivity].
    unfold inside. cbn [x y baseY].
    split; [split; lra|]. split; [|exact BY].
    apply (lateral_inside e f 0 (baseY p) G C BY).
  - apply JsFacts.ltb_ge in E. cbv [bind ret].
    eexists. eexists. split; [reflexivity|]. split; [|reflexivity].
    unfold inside. cbn [x y baseY].
    split; [split; lra|]. split; [|exact BY].
    apply (lateral_inside e f x1 (baseY p) G C BY).
Qed.

Lemma demo_unitRandom : unitRandom demoPage.
Proof. intro k. split; vm_compute; intro H; discriminate H. Qed.

(** X5.  On a page that has the canvas, with a canvas of positive size
    and random draws in [0, 1], the constructor returns an object with
    ceil(particleCount) particles (150 when the option is absent), every
    one of them inside the duct: 0 <= x <= pixelWidth, y between the two
    walls at x, and a spawn height within the entrance envelope. *)
Theorem constructor_particles_inside
  (e : env) (canvasId : string) (canvas : canvas) (o : options)
  (w : world) :
  getElementById e canvasId = Some canvas ->
  0 < canvas_width canvas -> 0 < canvas_height canvas ->
  0 < pixelRatio e -> unitRandom e ->
  exists f w',
    new canvasId o e w = (Returned tt, Live f, w') /\
    List.length (particles f)
    = Z.to_nat (Qceiling (Js.or_num (opt_particleCount o) 150)) /\
    (opt_particleCount o = None -> List.length (particles f) = 150%nat) /\
    Forall (inside e f) (particles f).
Proof.
  intros H Wd Ht Pr U.
  unfold new, constructor, bind, ask. rewrite H.
  unfold now, init, createParticles, bind.
  match goal with
  | |- context [repeatM ?n (spawn ?f0) e ?s0 ?w0] =>
      assert (G : venturi f0) by (constructor; reflexivity);
      assert (C : visible e f0) by (repeat split; assumption);
      destruct (repeatM_Forall (spawn f0) e (inside e f0)
                  (fun s w => spawn_inside e f0 s w G C U) n s0 w0)
        as (ps & w' & -> & Len & All)
  end.
  cbv [ret put draw get bind paint].
  eexists. eexists. split; [reflexivity|].
  cbn [particles set_particles].
  split; [exact Len|]. split.
  - intro N. rewrite Len. cbn [particleCount]. rewrite N. reflexivity.
  - exact All.
Qed.

Lemma constructor_particles_inside_witness :
  getElementById demoPage "bernoulli-canvas"
  = Some {| canvas_width := 800; canvas_height := 400 |} /\
  unitRandom demoPage /\
  exists f w',
    new "bernoulli-canvas"
      {| opt_baseVelocity := None; opt_particleCount := None |}
      demoPage boot
    = (Returned tt, Live f, w') /\
    List.length (particles f) = 150%nat /\
    Forall (inside demoPage f) (particles f).
Proof.
  split; [reflexivity|]. split; [exact demo_unitRandom|].
  destruct (constructor_particles_inside demoPage "bernoulli-canvas"
              {| canvas_width := 800; canvas_height := 400 |}
              {| opt_baseVelocity := None; opt_particleCount := None |}
              boot eq_refl eq_refl eq_refl eq_refl demo_unitRandom)
    as (f & w' & R & _ & L & A).
  exists f, w'. split; [exact R|]. split; [exact (L eq_refl) | exact A].
Defined.

(** X6.  One frame of update on an object whose particles are inside the
    duct, with a non-negative deltaTime and a non-zero reference speed,
    returns, keeps the number of particles and each particle's spawn
    height, and leaves every particle inside the duct: a particle that
    passes the right edge re-enters at x = 0, and the narrowing channel
    never squeezes a particle through a wall. *)
Theorem update_keeps_particles_inside
  (e : env) (f : fields) (w : world) (deltaTime : Q) :
  venturi f -> visible e f ->
  0 <= deltaTime -> ~ baseVelocity f == 0 ->
  Forall (inside e f) (particles f) ->
  exists ps w',
    update deltaTime e (Live f) w
    = (Returned tt, Live (set_particles ps f), w') /\
    List.length ps = List.length (particles f) /\
    Forall (inside e f) ps /\
    map baseY ps = map baseY (particles f).
Proof.
  intros G C D B All.
  unfold update. unfold bind at 1. unfold get at 1. cbv beta iota.
  unfold bind at 1.
  destruct (mapM_Forall (advance deltaTime f) e (inside e f)
              (fun p p' => inside e f p' /\ baseY p' = baseY p)
              (fun p I s w => advance_inside deltaTime e f p s w G C D B I)
              (particles f) All (Live f) w)
    as (ps & w' & -> & R).
  exists ps, w'. split; [reflexivity|].
  clear - R. induction R as [|p p' l l' [I E] R IH].
  - repeat split. constructor.
  - destruct IH as (Len & A & M). cbn [List.length map].
    split; [congruence|]. split; [constructor; assumption|].
    congruence.
Qed.

Lemma update_keeps_particles_inside_witness :
  venturi (ductWithSpeck 50) /\ visible demoPage (ductWithSpeck 50) /\
  0 <= 0.016 /\ ~ baseVelocity (duct 50) == 0 /\
  Forall (inside demoPage (ductWithSpeck 50))
         (particles (ductWithSpeck 50)) /\
  exists ps w',
    update 0.016 demoPage (Live (ductWithSpeck 50)) boot
    = (Returned tt, Live (set_particles ps (ductWithSpeck 50)), w') /\
    List.length ps = 1%nat /\
    Forall (inside demoPage (ductWithSpeck 50)) ps.
Proof.
  assert (D : 0 <= 0.016) by (vm_compute; intro H; discriminate H).
  assert (B : ~ baseVelocity (duct 50) == 0)
    by (intro H; vm_compute in H; discriminate H).
  assert (A : Forall (inside demoPage (ductWithSpeck 50))
                     (particles (ductWithSpeck 50))).
  { constructor; [|constructor].
    unfold inside. vm_compute.
    repeat split; intro H; discriminate H. }
  assert (G : venturi (ductWithSpeck 50)) by (constructor; reflexivity).
  assert (C : visible demoPage (ductWithSpeck 50)) by (repeat split).
  split; [exact G|]. split; [exact C|].
  split; [exact D|]. split; [exact B|]. split; [exact A|].
  destruct (update_keeps_particles_inside demoPage (ductWithSpeck 50)
              boot 0.016 G C D B A)
    as (ps & w' & R & L & I & _).
  exists ps, w'. split; [exact R|]. split; [exact L | exact I].
Defined.

Lemma onlyRandom_refl w : onlyRandom w w.
Proof. repeat split. Qed.

Lemma onlyRandom_trans w1 w2 w3 :
  onlyRandom w1 w2 -> onlyRandom w2 w3 -> onlyRandom w1 w3.
Proof.
  intros (A1 & A2 & A3 & A4 & A5) (B1 & B2 & B3 & B4 & B5).
  repeat split; congruence.
Qed.

Lemma advance_quiet {S} dt e f p (s : S) w :
  exists p' w',
    advance dt f p e s w = (Returned p', s, w') /\ onlyRandom w w'.
Proof.
  unfold advance. unfold bind at 1. unfold ask at 1. cbv beta iota zeta.
  destruct (Js.ltb _ _).
  - cbv [bind random ret]. eexists. eexists.
    split; [reflexivity | repeat split].
  - cbv [bind ret]. eexists. eexists.
    split; [reflexivity | repeat split].
Qed.

Lemma update_live dt e f w :
  exists ps w',
    update dt e (Live f) w = (Returned tt, Live (set_particles ps f), w') /\
    List.length ps = List.length (particles f) /\
    onlyRandom w w'.
Proof.
  unfold update. unfold bind at 1. unfold get at 1. cbv beta iota.
  unfold bind at 1.
  generalize (Live f) as s. generalize (particles f) as l.
  intros l s. revert w.
  induction l as [|p l IH]; intro w; cbn [mapM].
  - exists [], w. cbv [ret put]. repeat split.
  - unfold bind at 1.
    destruct (advance_quiet dt e f p s w) as (p' & w1 & -> & Q1).
    unfold bind at 1.
    destruct (IH w1) as (ps & w2 & R & Len & Q2).
    destruct (mapM (advance dt f) l e s w1) as [[[l'|] s'] w'] eqn:E;
      cbv [put] in R; [|discriminate R].
    injection R as Eps Ew. cbv [ret put].
    exists (p' :: l'), w'. split; [reflexivity|].
    assert (l' = ps).
    { clear - Eps. unfold set_particles in Eps. congruence. }
    subst. split; [cbn; congruence|].
    exact (onlyRandom_trans _ _ _ Q1 Q2).
Qed.

(** X7.  Life cycle of an initialised Bernoulli object.  start() on an
    idle object returns with isRunning set, has run one frame (one
    repaint, two clock readings, lastTime at the second one), holds the
    handle of the one frame it requested, and keeps the reference speed
    and the number of particles; start() on a running object changes
    nothing at all.  stop() clears isRunning, cancels the stored handle
    if there is one, touches nothing else, and a second stop() leaves
    the object as the first did.  destroy() stops and empties the
    particle list. *)
Theorem bernoulli_lifecycle (e : env) (f : fields) (w : world) :
  (isRunning f = false ->
   exists f' w',
     start e (Live f) w = (Returned tt, Live f', w') /\
     isRunning f' = true /\
     animationFrame f' = Some (Datatypes.S (frames_requested w)) /\
     lastTime f' = performance_now e (Datatypes.S (clock_reads w)) /\
     baseVelocity f' = baseVelocity f /\
     List.length (particles f') = List.length (particles f) /\
     frames_requested w' = Datatypes.S (frames_requested w) /\
     repaints w' = Datatypes.S (repaints w) /\
     clock_reads w' = Datatypes.S (Datatypes.S (clock_reads w))) /\
  (isRunning f = true -> start e (Live f) w = (Returned tt, Live f, w)) /\
  (exists f' w',
     stop e (Live f) w = (Returned tt, Live f', w') /\
     isRunning f' = false /\
     set_isRunning (isRunning f) (Live f') = Live f /\
     frames_cancelled w'
     = (frames_cancelled w
        + match animationFrame f with Some _ => 1 | None => 0 end)%nat /\
     repaints w' = repaints w /\
     this_after (stop e (Live f') w') = Live f') /\
  (exists f' w',
     destroy e (Live f) w = (Returned tt, Live f', w') /\
     isRunning f' = false /\ particles f' = []).
Proof.
  split; [|split; [|split]].
  - intro I.
    unfold start. unfold bind at 1. unfold get at 1. cbv beta iota.
    cbn [running]. rewrite I. cbn [negb].
    cbv [bind modify now animate get running set_isRunning set_lastTime
         negb isRunning get_lastTime lastTime].
    cbn [clock_reads random_draws console_errors frames_requested
         frames_cancelled repaints].
    match goal with
    | |- context [update ?dt e (Live ?f0) ?w0] =>
        destruct (update_live dt e f0 w0)
          as (ps & w1 & -> & Len & (Q1 & Q2 & Q3 & Q4 & Q5))
    end.
    cbv [draw bind get paint requestAnimationFrame modify
         set_animationFrame set_particles].
    cbn [clock_reads random_draws console_errors frames_requested
         frames_cancelled repaints] in *.
    eexists. eexists. split; [reflexivity|].
    cbn [isRunning animationFrame lastTime baseVelocity particles
         frames_requested repaints clock_reads].
    rewrite Q1, Q3, Q5. repeat split. exact Len.
  - intro I. unfold start. unfold bind at 1. unfold get at 1.
    cbv beta iota. cbn [running]. rewrite I. reflexivity.
  - destruct f as [wd ht ad ap bv pc tt tb ht' hb ts te ir [h|] ps lt];
      cbv [stop bind modify get set_isRunning get_animationFrame
           animationFrame cancelAnimationFrame ret this_after];
      cbn [clock_reads random_draws console_errors frames_requested
           frames_cancelled repaints];
      eexists; eexists; (split; [reflexivity|]);
      cbn; repeat split; lia.
  - destruct f as [wd ht ad ap bv pc tt tb ht' hb ts te ir [h|] ps lt];
      cbv [destroy stop bind modify get set_isRunning get_animationFrame
           animationFrame cancelAnimationFrame ret empty_particles
           set_particles];
      eexists; eexists; (split; [reflexivity|]);
      cbn; split; reflexivity.
Qed.

Lemma bernoulli_lifecycle_witness :
  isRunning (ductWithSpeck 50) = false /\
  exists f' w',
    start demoPage (Live (ductWithSpeck 50)) boot
    = (Returned tt, Live f', w') /\
    isRunning f' = true /\
    List.length (particles f') = 1%nat /\
    repaints w' = 1%nat.
Proof.
  split; [reflexivity|].
  destruct (bernoulli_lifecycle demoPage (ductWithSpeck 50) boot)
    as (S & _).
  destruct (S eq_refl) as (f' & w' & R & I & _ & _ & _ & L & _ & P & _).
  exists f', w'. split; [exact R|]. split; [exact I|].
  split; [exact L | exact P].
Defined.

(** X8.  setVelocity(v) on an initialised object returns normally,
    stores v and changes no other property; it repaints the canvas once
    when the animation is idle and not at all when it is running, and
    does nothing else to the page. *)
Theorem setVelocity_repaints_when_idle
  (e : env) (f : fields) (w : world) (v : Q) :
  exists f' w',
    setVelocity v e (Live f) w = (Returned tt, Live f', w') /\
    Live f' = set_baseVelocity v (Live f) /\
    baseVelocity f' = v /\
    repaints w'
    = (repaints w + if isRunning f then 0 else 1)%nat /\
    clock_reads w' = clock_reads w /\
    random_draws w' = random_draws w /\
    console_errors w' = console_errors w /\
    frames_requested w' = frames_requested w /\
    frames_cancelled w' = frames_cancelled w.
Proof.
  destruct (isRunning f) eqn:I.
  - cbv [setVelocity bind modify get running set_baseVelocity isRunning].
    cbv [isRunning] in I. rewrite I. cbv [negb ret].
    eexists. eexists. split; [reflexivity|].
    cbn. repeat split. lia.
  - cbv [setVelocity bind modify get running set_baseVelocity isRunning].
    cbv [isRunning] in I. rewrite I. cbv [negb draw bind get paint].
    eexists. eexists. split; [reflexivity|].
    cbn. repeat split. lia.
Qed.

End FlowSpec.

(** ** More on the four-forces simulator *)

Module ForcesMore.
Import Host Forces ForcesSpec.

Lemma clamp_low a b c : a <= Js.max a (Js.min b c).
Proof.
  unfold Js.max, Js.min.
  cmp (Js.leb b c); [cmp (Js.leb a b) | cmp (Js.leb a c)]; lra.
Qed.

Lemma clamp_high a b c : a <= b -> Js.max a (Js.min b c) <= b.
Proof.
  intro H. unfold Js.max, Js.min.
  cmp (Js.leb b c); [cmp (Js.leb a b) | cmp (Js.leb a c)]; lra.
Qed.

Lemma clamp_narrow a b c : b < a -> Js.max a (Js.min b c) == a.
Proof.
  intro H. unfold Js.max, Js.min.
  cmp (Js.leb b c); [cmp (Js.leb a b) | cmp (Js.leb a c)]; lra.
Qed.

Lemma clamp_within a b c : a <= c <= b -> Js.max a (Js.min b c) == c.
Proof.
  intros [H1 H2]. unfold Js.max, Js.min.
  cmp (Js.leb b c); [cmp (Js.leb a b) | cmp (Js.leb a c)]; lra.
Qed.

(** One frame, all of it. *)
Lemma update_frame dt e f w :
  exists f',
    update dt e f w = (Returned tt, f', w) /\
    width f' = width f /\ height f' = height f /\
    lift f' = lift f /\ weight f' = weight f /\
    thrust f' = thrust f /\ drag f' = drag f /\
    verticalVelocity f'
    = (verticalVelocity f + (lift f - weight f) * 0.5 * dt) * 0.95 /\
    horizontalVelocity f'
    = (horizontalVelocity f + (thrust f - drag f) * 0.5 * dt) * 0.95 /\
    planeX f'
    = Js.max 100 (Js.min (width f / pixelRatio e - 100)
                         (planeX f + horizontalVelocity f' * dt)) /\
    planeY f'
    = Js.max 100 (Js.min (height f / pixelRatio e - 100)
                         (planeY f - verticalVelocity f' * dt)) /\
    planeRotation f'
    = planeRotation f
      + (- (lift f - weight f) * 0.003 - planeRotation f) * 0.1.
Proof.
  cbv [update bind ask get put].
  eexists. split; [reflexivity|]. cbn. repeat split.
Qed.

(** X9.  After any frame the body is at least 100 pixels from the left
    and top edges; when the canvas is at least 200 CSS pixels wide (high)
    it is also at least 100 pixels from the right (bottom) edge; on a
    narrower (lower) canvas it sits at exactly 100. *)
Theorem update_clamps_position
  (e : env) (f : fields) (w : world) (deltaTime : Q) :
  exists f',
    update deltaTime e f w = (Returned tt, f', w) /\
    100 <= planeX f' /\ 100 <= planeY f' /\
    (200 <= width f / pixelRatio e ->
     planeX f' <= width f / pixelRatio e - 100) /\
    (200 <= height f / pixelRatio e ->
     planeY f' <= height f / pixelRatio e - 100) /\
    (width f / pixelRatio e < 200 -> planeX f' == 100) /\
    (height f / pixelRatio e < 200 -> planeY f' == 100).
Proof.
  destruct (update_frame deltaTime e f w)
    as (f' & U & _ & _ & _ & _ & _ & _ & _ & _ & X & Y & _).
  exists f'. split; [exact U|]. rewrite X, Y.
  split; [apply clamp_low|]. split; [apply clamp_low|].
  split; [intro H; apply clamp_high; lra|].
  split; [intro H; apply clamp_high; lra|].
  split; intro H; apply clamp_narrow; lra.
Qed.

Lemma update_clamps_position_witness :
  200 <= width (atRest 90 10 90 10) / pixelRatio demoPage /\
  exists f',
    update 10 demoPage (atRest 90 10 90 10) boot = (Returned tt, f', boot) /\
    planeX f' <= width (atRest 90 10 90 10) / pixelRatio demoPage - 100.
Proof.
  assert (H : 200 <= width (atRest 90 10 90 10) / pixelRatio demoPage)
    by (vm_compute; intro K; discriminate K).
  split; [exact H|].
  destruct (update_clamps_position demoPage (atRest 90 10 90 10) boot 10)
    as (f' & U & _ & _ & X & _).
  exists f'. split; [exact U | exact (X H)].
Defined.

Lemma equilibrium_frame dt e f w :
  equilibrium e f ->
  exists f',
    update dt e f w = (Returned tt, f', w) /\
    equilibrium e f' /\
    planeX f' == planeX f /\ planeY f' == planeY f.
Proof.
  intros (L & T & V & H & R & X & Y).
  destruct (update_frame dt e f w)
    as (f' & U & Wd & Ht & L' & W' & T' & D' & VV & HV & PX & PY & PR).
  exists f'. split; [exact U|].
  assert (V0 : verticalVelocity f' == 0).
  { rewrite VV, V, L. ring. }
  assert (H0 : horizontalVelocity f' == 0).
  { rewrite HV, H, T. ring. }
  assert (X0 : planeX f' == planeX f).
  { rewrite PX. rewrite clamp_within by (rewrite H0; lra).
    rewrite H0. ring. }
  assert (Y0 : planeY f' == planeY f).
  { rewrite PY. rewrite clamp_within by (rewrite V0; lra).
    rewrite V0. ring. }
  split; [|split; assumption].
  unfold equilibrium. rewrite L', W', T', D', Wd, Ht, X0, Y0.
  repeat split; try assumption; try tauto.
  rewrite PR, R, L. ring.
Qed.

Lemma equilibrium_frames dt e n :
  forall f w,
    equilibrium e f ->
    exists f' w',
      frames n dt e f w = (Returned tt, f', w') /\
      equilibrium e f' /\
      planeX f' == planeX f /\ planeY f' == planeY f.
Proof.
  induction n as [|n IH]; intros f w E.
  - exists f, w. cbn [frames]. split; [reflexivity|].
    split; [exact E|]. split; reflexivity.
  - destruct (equilibrium_frame dt e f w E) as (f1 & U & E1 & X1 & Y1).
    destruct (IH f1 w E1) as (f' & w' & R & E' & X' & Y').
    exists f', w'. cbn [frames]. unfold bind at 1. rewrite U.
    split; [exact R|]. split; [exact E'|].
    split; [rewrite X'; exact X1 | rewrite Y'; exact Y1].
Qed.

(** X10.  reset() returns the simulator to level flight: all four forces
    are 50, the body is at the centre of the canvas with no velocity and
    level attitude, and a second reset() leaves the object as the first
    did.  On a canvas at least 200 CSS pixels wide and high that state is
    an equilibrium: after any number of frames of any deltaTime the
    velocities and the attitude are still 0 and the body is still at the
    centre. *)
Theorem reset_restores_level_flight (e : env) (f : fields) (w : world) :
  exists f0 w0,
    reset e f w = (Returned tt, f0, w0) /\
    lift f0 = 50 /\ weight f0 = 50 /\ thrust f0 = 50 /\ drag f0 = 50 /\
    planeX f0 = width f / pixelRatio e / 2 /\
    planeY f0 = height f / pixelRatio e / 2 /\
    verticalVelocity f0 = 0 /\ horizontalVelocity f0 = 0 /\
    planeRotation f0 = 0 /\
    this_after (reset e f0 w0) = f0 /\
    (200 <= width f / pixelRatio e -> 200 <= height f / pixelRatio e ->
     forall n deltaTime,
       exists f' w',
         frames n deltaTime e f0 w0 = (Returned tt, f', w') /\
         verticalVelocity f' == 0 /\ horizontalVelocity f' == 0 /\
         planeRotation f' == 0 /\
         planeX f' == width f / pixelRatio e / 2 /\
         planeY f' == height f / pixelRatio e / 2).
Proof.
  assert (R : exists f0 w0,
             reset e f w = (Returned tt, f0, w0) /\
             f0 = resetPlanePosition e (set_forces 50 50 50 50 f)).
  { cbv [reset bind ask modify get draw paint ret].
    destruct (isRunning _); eexists; eexists; split; reflexivity. }
  destruct R as (f0 & w0 & R & F). exists f0, w0.
  split; [exact R|]. subst f0.
  do 9 (split; [reflexivity|]).
  split.
  - cbv [reset bind ask modify get draw paint ret this_after].
    cbn. destruct (isRunning f); reflexivity.
  - intros Wd Ht n dt.
    set (f0 := resetPlanePosition e (set_forces 50 50 50 50 f)).
    assert (E : equilibrium e f0).
    { unfold equilibrium, f0. cbn.
      repeat split; try reflexivity; qlra. }
    destruct (equilibrium_frames dt e n f0 w0 E)
      as (f' & w' & Rn & (_ & _ & V & H & Ro & _) & X & Y).
    exists f', w'. split; [exact Rn|].
    split; [exact V|]. split; [exact H|]. split; [exact Ro|].
    split; [rewrite X | rewrite Y]; reflexivity.
Qed.

Lemma reset_restores_level_flight_witness :
  200 <= width (atRest 90 10 80 20) / pixelRatio demoPage /\
  200 <= height (atRest 90 10 80 20) / pixelRatio demoPage /\
  exists f0 w0,
    reset demoPage (atRest 90 10 80 20) boot = (Returned tt, f0, w0) /\
    exists f' w',
      frames (100 * 100) 0.016 demoPage f0 w0 = (Returned tt, f', w') /\
      verticalVelocity f' == 0 /\ planeX f' == 800 / 1 / 2.
Proof.
  assert (A : 200 <= width (atRest 90 10 80 20) / pixelRatio demoPage)
    by (vm_compute; intro K; discriminate K).
  assert (B : 200 <= height (atRest 90 10 80 20) / pixelRatio demoPage)
    by (vm_compute; intro K; discriminate K).
  split; [exact A|]. split; [exact B|].
  destruct (reset_restores_level_flight demoPage (atRest 90 10 80 20) boot)
    as (f0 & w0 & R & _ & _ & _ & _ & _ & _ & _ & _ & _ & _ & Eq).
  exists f0, w0. split; [exact R|].
  destruct (Eq A B (100 * 100)%nat 0.016)
    as (f' & w' & Rn & V & _ & _ & X & _).
  exists f', w'. split; [exact Rn|]. split; [exact V | exact X].
Defined.


End ForcesMore.

(** ** More on the airfoil coefficients *)

Module AirfoilMore.
Import Host Airfoil AirfoilSpec.

(** X12.  The lift coefficient is bounded: for every airfoil type and
    every angle of attack it lies between -1 and 1.7; the cambered type
    reaches 1.7 at 15 degrees and every other type reaches -1 at
    -10 degrees. *)
Theorem lift_coefficient_bounded (this : fields) (alpha : Q) :
  -1 <= liftAt this alpha <= 1.7 /\
  (airfoilType this = "cambered" -> liftAt this 15 == 1.7) /\
  (airfoilType this <> "cambered" -> liftAt this (-10) == -1).
Proof.
  split; [|split].
  - destruct (baseOffset_cases this) as [B | B].
    + destruct (Qlt_le_dec alpha (-10)) as [L | L].
      { rewrite liftAt_below by exact L. split; lra. }
      destruct (Qlt_le_dec 15 alpha) as [S | S].
      * destruct (Qlt_le_dec 20 alpha) as [D | D].
        { rewrite liftAt_above by exact D. split; lra. }
        rewrite liftAt_stall by lra. rewrite peak_unfold, B. split; qlra.
      * rewrite liftAt_linear by lra. rewrite B. split; lra.
    + destruct (Qlt_le_dec alpha (-10)) as [L | L].
      { rewrite liftAt_below by exact L. split; lra. }
      destruct (Qlt_le_dec 15 alpha) as [S | S].
      * destruct (Qlt_le_dec 20 alpha) as [D | D].
        { rewrite liftAt_above by exact D. split; lra. }
        rewrite liftAt_stall by lra. rewrite peak_unfold, B. split; qlra.
      * rewrite liftAt_linear by lra. rewrite B. split; lra.
  - intro T. rewrite liftAt_linear by lra.
    unfold baseOffset. rewrite T. reflexivity.
  - intro T. rewrite liftAt_linear by lra.
    unfold baseOffset. apply String.eqb_neq in T. rewrite T. reflexivity.
Qed.

Lemma lift_coefficient_bounded_witness :
  airfoilType (wing "cambered") = "cambered" /\
  liftAt (wing "cambered") 15 == 1.7.
Proof.
  split; [reflexivity|].
  apply (lift_coefficient_bounded (wing "cambered") 0).
  reflexivity.
Defined.



Lemma calculateLiftCoefficient_liftAt this :
  calculateLiftCoefficient this = liftAt this (angleOfAttack this).
Proof. destruct this; reflexivity. Qed.

Lemma induced_factor : 0 < / (Js.PI * 6) /\ / (Js.PI * 6) < 0.0531.
Proof. split; reflexivity. Qed.

(** X14.  The drag coefficient is at least the parasitic 0.02; the stall
    overlay is drawn exactly when the 0.3 stall drag is included, in
    which case the coefficient is at least 0.32, and otherwise the
    coefficient stays below 0.18. *)
Theorem drag_coefficient_and_stall_warning (this : fields) :
  0.02 <= calculateDragCoefficient this /\
  (stallWarningShown this = true ->
   15 < Qabs (angleOfAttack this) /\
   0.32 <= calculateDragCoefficient this) /\
  (stallWarningShown this = false ->
   Qabs (angleOfAttack this) <= 15 /\
   calculateDragCoefficient this < 0.18).
Proof.
  destruct (lift_coefficient_bounded this (angleOfAttack this))
    as [[L U] _].
  rewrite <- calculateLiftCoefficient_liftAt in L, U.
  destruct induced_factor as [K0 K1].
  unfold calculateDragCoefficient, stallWarningShown, Js.pow2.
  change (Js.ltb 15 (Qabs (angleOfAttack this)))
    with (negb (Js.leb (Qabs (angleOfAttack this)) 15)).
  set (CL := calculateLiftCoefficient this) in *.
  unfold Qdiv. set (k := / (Js.PI * 6)) in *.
  assert (S0 : 0 <= CL * CL) by nra.
  assert (S1 : CL * CL <= 2.89) by nra.
  assert (I0 : 0 <= CL * CL * k) by nra.
  assert (I1 : CL * CL * k < 0.16) by nra.
  cmp (Js.leb (Qabs (angleOfAttack this)) 15); cbn [negb].
  - split; [lra|]. split; [intro H; discriminate H|].
    intros _. split; lra.
  - split; [lra|]. split; [|intro H; discriminate H].
    intros _. split; lra.
Qed.

Lemma drag_coefficient_and_stall_warning_witness :
  stallWarningShown (set_angleOfAttack 18 (wing "cambered")) = true /\
  0.32 <= calculateDragCoefficient (set_angleOfAttack 18 (wing "cambered")).
Proof.
  split; [reflexivity|].
  apply (drag_coefficient_and_stall_warning
           (set_angleOfAttack 18 (wing "cambered"))).
  reflexivity.
Defined.

End AirfoilMore.

(** ** More on the control surfaces *)

Module ControlsMore.
Import Host Controls.

(** X15.  The rotation indicators carry no history: after any earlier
    setControls or reset(), setControls(a, e, r) leaves exactly the
    object it leaves when called first, so the indicators depend on the
    latest deflections only; each call repaints once.  reset() and
    setControls(0, 0, 0), which the page uses for its reset button, both
    leave all three deflections and all three indicators at zero and the
    airplane where it was. *)
Theorem controls_depend_on_latest_input
  (e : env) (f : fields) (w w1 : world)
  (aileron elevator rudder aileron' elevator' rudder' : Q) :
  this_after
    (setControls aileron elevator rudder e
       (this_after (setControls aileron' elevator' rudder' e (Live f) w))
       w1)
  = this_after (setControls aileron elevator rudder e (Live f) w) /\
  this_after
    (setControls aileron elevator rudder e
       (this_after (reset e (Live f) w)) w1)
  = this_after (setControls aileron elevator rudder e (Live f) w) /\
  repaints (world_after (setControls aileron elevator rudder e (Live f) w))
  = Datatypes.S (repaints w) /\
  (exists f0 f1,
     this_after (reset e (Live f) w) = Live f0 /\
     this_after (setControls 0 0 0 e (Live f) w) = Live f1 /\
     aileronDeflection f0 = 0 /\ aileronDeflection f1 = 0 /\
     elevatorDeflection f0 = 0 /\ elevatorDeflection f1 = 0 /\
     rudderDeflection f0 = 0 /\ rudderDeflection f1 = 0 /\
     rollAngle f0 == 0 /\ rollAngle f1 == 0 /\
     pitchAngle f0 == 0 /\ pitchAngle f1 == 0 /\
     yawAngle f0 == 0 /\ yawAngle f1 == 0 /\
     centerX f0 = centerX f /\ centerX f1 = centerX f /\
     centerY f0 = centerY f /\ centerY f1 = centerY f).
Proof.
  split; [reflexivity|]. split; [reflexivity|]. split; [reflexivity|].
  eexists. eexists. split; [reflexivity|]. split; [reflexivity|].
  cbn. repeat split; reflexivity.
Qed.



End ControlsMore.

(** ** More on the flight phases *)

Module PhasesMore.
Import Host Phases PhasesSpec.

(** What [update] can change: the phase and its progress, the index and
    the phase start time, and the pose; and what it reads of the clock. *)
(** What [update] keeps, what it does to the pose when auto-play is off,
    and the progress it stores when auto-play is on. *)
Lemma update_facts dt e f w :
  exists f' w',
    update dt e f w = (Returned tt, f', w') /\
    (width f' = width f /\ height f' = height f /\
     isPlaying f' = isPlaying f /\ animationFrame f' = animationFrame f /\
     lastTime f' = lastTime f /\ groundLevel f' = groundLevel f /\
     phaseDuration f' = phaseDuration f /\
     autoPlayEnabled f' = autoPlayEnabled f) /\
    (autoPlayEnabled f = false ->
     w' = w /\ currentPhase f' = currentPhase f /\
     phaseProgress f' = phaseProgress f /\
     currentPhaseIndex f' = currentPhaseIndex f /\
     phaseStartTime f' = phaseStartTime f /\
     targetX (airplane f') = targetX (airplane f) /\
     targetY (airplane f') = targetY (airplane f) /\
     targetRotation (airplane f') = targetRotation (airplane f) /\
     targetVelocity (airplane f') = targetVelocity (airplane f) /\
     x (airplane f')
     = x (airplane f) + (targetX (airplane f) - x (airplane f)) * 0.05 /\
     y (airplane f')
     = y (airplane f) + (targetY (airplane f) - y (airplane f)) * 0.05 /\
     rotation (airplane f')
     = rotation (airplane f)
       + (targetRotation (airplane f) - rotation (airplane f)) * 0.05 /\
     velocity (airplane f')
     = velocity (airplane f)
       + (targetVelocity (airplane f) - velocity (airplane f)) * 0.05) /\
    (autoPlayEnabled f = true ->
     phaseProgress f'
     = Js.min ((performance_now e (pred (clock_reads w'))
                - phaseStartTime f') / phaseDuration f') 1).
Proof.
  destruct (dueb e f w) eqn:D.
  - unfold dueb in D. apply andb_true_iff in D. destruct D as [A L].
    unfold update. unfold bind at 1. unfold get at 1.
    rewrite A. unfold bind at 1. unfold bind at 1. unfold bind at 1.
    unfold now at 1. cbv beta iota. rewrite L.
    unfold bind at 1. unfold modify at 1. cbv beta iota.
    match goal with
    | |- context [setPhase ?p e ?f0 ?w0] =>
        destruct (setPhase_run p e f0 w0) as (a0 & t0 & w1 & -> & _)
    end.
    cbv [bind now get put].
    eexists. eexists. split; [reflexivity|].
    cbn. split; [repeat split; congruence|].
    split; [intro H; congruence | intros _; reflexivity].
  - unfold dueb in D. unfold update. unfold bind at 1. unfold get at 1.
    destruct (autoPlayEnabled f) eqn:A.
    + cbn [andb] in D.
      unfold bind at 1. unfold bind at 1. unfold bind at 1.
      unfold now at 1. cbv beta iota. rewrite D.
      cbv [bind now get put ret].
      eexists. eexists. split; [reflexivity|].
      cbn. split; [repeat split; congruence|].
      split; [intro H; discriminate H | intros _; reflexivity].
    + cbv [bind now get put ret].
      eexists. eexists. split; [reflexivity|].
      cbn. split; [repeat split; congruence|].
      split; [intros _; repeat split | intro H; discriminate H].
Qed.

(** X17.  On a page that has the canvas the constructor returns a
    simulator at cruise, index 2, with auto-play off and the loop not
    running, and with the airplane placed on the cruise target pose
    itself (half the width, three tenths of the height, level, 80 m/s)
    rather than gliding to it from the corner; the ground is 80 pixels
    above the bottom edge; the canvas has been painted once. *)
Theorem constructor_starts_at_cruise
  (e : env) (canvasId : string) (canvas : canvas) (w : world) :
  getElementById e canvasId = Some canvas ->
  exists f w',
    new canvasId e w = (Returned tt, Some f, w') /\
    currentPhase f = "cruise" /\ currentPhaseIndex f = 2%nat /\
    synced f /\
    autoPlayEnabled f = false /\ isPlaying f = false /\
    phaseProgress f = 0 /\
    groundLevel f = canvas_height canvas / pixelRatio e - 80 /\
    targetX (airplane f) = canvas_width canvas / pixelRatio e * 0.5 /\
    targetY (airplane f) = canvas_height canvas / pixelRatio e * 0.3 /\
    targetRotation (airplane f) = 0 /\ targetVelocity (airplane f) = 80 /\
    x (airplane f) = targetX (airplane f) /\
    y (airplane f) = targetY (airplane f) /\
    rotation (airplane f) = targetRotation (airplane f) /\
    velocity (airplane f) = targetVelocity (airplane f) /\
    repaints w' = Datatypes.S (repaints w).
Proof.
  intro H. unfold new, constructor, bind, ask. rewrite H.
  cbv [init initial bind ask modify setPhase now get put draw paint
       resetDimensions set_phase set_phaseStartTime set_autoPlay
       set_airplane retarget snap String.eqb Ascii.eqb Bool.eqb
       width height isPlaying animationFrame lastTime currentPhase
       phaseProgress airplane groundLevel runwayStart runwayEnd
       autoPlayEnabled phaseSequence currentPhaseIndex phaseDuration
       phaseStartTime x y rotation targetX targetY targetRotation
       velocity targetVelocity
       clock_reads random_draws console_errors frames_requested
       frames_cancelled repaints].
  change (Qeq_bool 0 0) with true. cbv [andb].
  eexists. eexists. split; [reflexivity|].
  cbn [width height isPlaying animationFrame lastTime currentPhase
       phaseProgress airplane groundLevel runwayStart runwayEnd
       autoPlayEnabled phaseSequence currentPhaseIndex phaseDuration
       phaseStartTime x y rotation targetX targetY targetRotation
       velocity targetVelocity repaints].
  repeat split; try reflexivity. cbn. lia.
Qed.

Lemma constructor_starts_at_cruise_witness :
  getElementById demoPage "phases-canvas"
  = Some {| canvas_width := 800; canvas_height := 400 |} /\
  exists f w',
    new "phases-canvas" demoPage boot = (Returned tt, Some f, w') /\
    currentPhase f = "cruise" /\
    x (airplane f) = targetX (airplane f).
Proof.
  split; [reflexivity|].
  destruct (constructor_starts_at_cruise demoPage "phases-canvas"
              {| canvas_width := 800; canvas_height := 400 |} boot eq_refl)
    as (f & w' & R & P & _ & _ & _ & _ & _ & _ & _ & _ & _ & _ & X & _).
  exists f, w'. split; [exact R|]. split; [exact P | exact X].
Defined.



(** X19.  A manual selection does not move the auto-play index: after
    setPhase(p), whatever p is, the index is what it was, and the next
    due frame shows the phase that follows the index in the cyclic order,
    not the phase that follows p. *)
Theorem manual_selection_keeps_index
  (e : env) (f : fields) (w : world) (p : string) :
  autoPlayEnabled f = true -> phaseSequence f = theSequence ->
  exists f1 w1,
    setPhase p e f w = (Returned tt, f1, w1) /\
    currentPhase f1 = p /\
    currentPhaseIndex f1 = currentPhaseIndex f /\
    forall w2 deltaTime,
      due e f1 w2 ->
      exists f2 w3,
        update deltaTime e f1 w2 = (Returned tt, f2, w3) /\
        currentPhase f2
        = nth ((currentPhaseIndex f + 1) mod 5) theSequence "undefined".
Proof.
  intros A Q.
  destruct (setPhase_run p e f w) as (a & t & w1 & R & _).
  eexists. exists w1. split; [exact R|].
  split; [reflexivity|]. split; [reflexivity|].
  intros w2 dt D.
  match type of D with
  | due e ?g w2 =>
      destruct (update_run dt e g w2) as (f2 & w3 & U & _ & _ & Dn & _);
      exists f2, w3; split; [exact U|];
      destruct (Dn D) as [_ P]; rewrite P
  end.
  cbn [phaseSequence currentPhaseIndex set_airplane set_phaseStartTime
       set_autoPlay set_phase].
  rewrite Q. reflexivity.
Qed.

Lemma manual_selection_keeps_index_witness :
  autoPlayEnabled (this_after demoFlight) = true /\
  phaseSequence (this_after demoFlight) = theSequence /\
  currentPhaseIndex (this_after demoFlight) = 2%nat /\
  exists f1 w1 f2 w3,
    setPhase "takeoff" demoPage (this_after demoFlight) boot
    = (Returned tt, f1, w1) /\
    due demoPage f1 (world_after demoFlight) /\
    update 0.016 demoPage f1 (world_after demoFlight)
    = (Returned tt, f2, w3) /\
    currentPhase f2 = "descent".
Proof.
  split; [reflexivity|]. split; [reflexivity|]. split; [reflexivity|].
  destruct (manual_selection_keeps_index demoPage (this_after demoFlight)
              boot "takeoff" eq_refl eq_refl)
    as (f1 & w1 & R & _ & _ & Next).
  assert (E : f1 = this_after
                     (setPhase "takeoff" demoPage (this_after demoFlight)
                        boot)).
  { rewrite R. reflexivity. }
  assert (D : due demoPage f1 (world_after demoFlight)).
  { rewrite E. apply dueb_due. vm_compute. reflexivity. }
  destruct (Next (world_after demoFlight) 0.016 D) as (f2 & w3 & U & P).
  exists f1, w1, f2, w3.
  split; [exact R|]. split; [exact D|]. split; [exact U|]. exact P.
Defined.

Lemma start_running e f w :
  isPlaying f = true -> start e f w = (Returned tt, f, w).
Proof.
  intro I. unfold start. unfold bind at 1. unfold get at 1.
  cbv beta iota. rewrite I. reflexivity.
Qed.

Lemma start_idle e f w :
  isPlaying f = false ->
  exists f' w',
    start e f w = (Returned tt, f', w') /\
    isPlaying f' = true /\
    autoPlayEnabled f' = autoPlayEnabled f /\
    lastTime f' = performance_now e (Datatypes.S (clock_reads w)).
Proof.
  intro I. unfold start. unfold bind at 1. unfold get at 1.
  cbv beta iota. rewrite I. cbn [negb].
  unfold bind at 1. unfold now at 1. cbv beta iota.
  unfold bind at 1. unfold modify at 1. cbv beta iota.
  unfold animate. unfold bind at 1. unfold get at 1. cbv beta iota.
  cbn [isPlaying set_playing negb].
  unfold bind at 1. unfold now at 1. cbv beta iota.
  unfold bind at 1. unfold modify at 1. cbv beta iota.
  unfold bind at 1.
  match goal with
  | |- context [update ?dt e ?f0 ?w0] =>
      destruct (update_facts dt e f0 w0)
        as (f1 & w1 & -> & (_ & _ & I1 & _ & L1 & _ & _ & A1) & _)
  end.
  unfold bind at 1. unfold draw, paint. cbv beta iota.
  unfold bind at 1. unfold requestAnimationFrame at 1. cbv beta iota.
  unfold modify.
  eexists. eexists. split; [reflexivity|].
  cbn [isPlaying autoPlayEnabled lastTime set_playing] in *.
  cbn [clock_reads] in L1.
  split; [exact I1|]. split; [exact A1 | exact L1].
Qed.

(** X20.  Turning auto-play off only clears the flag: the loop keeps
    running if it was, no frame is cancelled, and nothing else changes.
    Turning it on returns true with the flag set and the loop running.
    stop() leaves the auto-play flag and the phase as they are, clears
    isPlaying and the frame handle, cancels the pending frame if there is
    one, and a second stop() changes nothing at all. *)
Theorem autoplay_toggle_and_stop (e : env) (f : fields) (w : world) :
  (autoPlayEnabled f = true ->
   toggleAutoPlay e f w = (Returned false, set_autoPlayEnabled false f, w)) /\
  (autoPlayEnabled f = false ->
   exists f' w',
     toggleAutoPlay e f w = (Returned true, f', w') /\
     autoPlayEnabled f' = true /\ isPlaying f' = true) /\
  (exists f' w',
     stop e f w = (Returned tt, f', w') /\
     isPlaying f' = false /\ animationFrame f' = None /\
     autoPlayEnabled f' = autoPlayEnabled f /\
     currentPhase f' = currentPhase f /\
     phaseStartTime f' = phaseStartTime f /\
     frames_cancelled w'
     = (frames_cancelled w
        + match animationFrame f with Some _ => 1 | None => 0 end)%nat /\
     stop e f' w' = (Returned tt, f', w')).
Proof.
  split; [|split].
  - intro A. destruct f as [wd ht ip af lt cp pp ap gl rs re ae ps ci pd st].
    cbn in A. subst ae. reflexivity.
  - intro A.
    unfold toggleAutoPlay. unfold bind at 1. unfold modify at 1.
    cbv beta iota. unfold bind at 1. unfold get at 1. cbv beta iota.
    unfold bind at 1. rewrite A.
    cbn [negb set_autoPlayEnabled set_autoPlay autoPlayEnabled].
    unfold bind at 1. unfold now at 1. cbv beta iota.
    unfold bind at 1. unfold modify at 1. cbv beta iota.
    match goal with
    | |- context [start e ?f0 ?w0] =>
        destruct (isPlaying f) eqn:I;
        [ rewrite (start_running e f0 w0) by exact I
        | destruct (start_idle e f0 w0 I) as (f1 & w1 & -> & I1 & A1 & _) ]
    end.
    + cbv [bind get ret]. eexists. eexists. split; [reflexivity|].
      split; [reflexivity | exact I].
    + cbv [bind get ret]. cbn [autoPlayEnabled set_phaseStartTime
                                 set_autoPlay] in A1.
      rewrite A1. eexists. eexists. split; [reflexivity|].
      split; [exact A1 | exact I1].
  - destruct f as [wd ht ip [h|] lt cp pp ap gl rs re ae ps ci pd st].
    + eexists. eexists. split; [reflexivity|].
      cbn. repeat split. lia.
    + eexists. eexists. split; [reflexivity|].
      cbn. repeat split. lia.
Qed.

Lemma autoplay_toggle_and_stop_witness :
  autoPlayEnabled (this_after demoFlight) = true /\
  toggleAutoPlay demoPage (this_after demoFlight) (world_after demoFlight)
  = (Returned false, set_autoPlayEnabled false (this_after demoFlight),
     world_after demoFlight) /\
  isPlaying (set_autoPlayEnabled false (this_after demoFlight)) = true.
Proof.
  split; [reflexivity|]. split; [|reflexivity].
  apply (autoplay_toggle_and_stop demoPage (this_after demoFlight)
           (world_after demoFlight)).
  reflexivity.
Defined.

(** X21.  start() does not restart the phase timer.  If the loop is
    stopped while auto-play is on and start() is called when the third
    clock reading from now (the one update takes) is a phase duration or
    more past the phase start, the first frame already moves to the next
    phase of the cyclic order. *)
Theorem resume_after_pause_advances (e : env) (f : fields) (w : world) :
  isPlaying f = false -> autoPlayEnabled f = true ->
  phaseSequence f = theSequence ->
  phaseDuration f
  <= performance_now e (Datatypes.S (Datatypes.S (clock_reads w)))
     - phaseStartTime f ->
  exists f' w',
    start e f w = (Returned tt, f', w') /\
    isPlaying f' = true /\
    currentPhaseIndex f' = ((currentPhaseIndex f + 1) mod 5)%nat /\
    currentPhase f'
    = nth ((currentPhaseIndex f + 1) mod 5) theSequence "undefined".
Proof.
  intros I A Q D.
  unfold start. unfold bind at 1. unfold get at 1.
  cbv beta iota. rewrite I. cbn [negb].
  unfold bind at 1. unfold now at 1. cbv beta iota.
  unfold bind at 1. unfold modify at 1. cbv beta iota.
  unfold animate. unfold bind at 1. unfold get at 1. cbv beta iota.
  cbn [isPlaying set_playing negb].
  unfold bind at 1. unfold now at 1. cbv beta iota.
  unfold bind at 1. unfold modify at 1. cbv beta iota.
  unfold bind at 1.
  match goal with
  | |- context [update ?dt e ?f0 ?w0] =>
      assert (Due : due e f0 w0) by (split; [exact A | exact D]);
      destruct (update_run dt e f0 w0) as (f1 & w1 & U & _ & _ & Dn & _);
      destruct (update_facts dt e f0 w0)
        as (f2 & w2 & U2 & (_ & _ & I1 & _) & _);
      rewrite U in U2; injection U2 as <- <-;
      rewrite U; destruct (Dn Due) as [Ix P]
  end.
  unfold bind at 1. unfold draw, paint. cbv beta iota.
  unfold bind at 1. unfold requestAnimationFrame at 1. cbv beta iota.
  unfold modify.
  eexists. eexists. split; [reflexivity|].
  cbn [isPlaying currentPhaseIndex currentPhase phaseSequence
       set_playing] in *.
  rewrite Q in Ix, P. cbn [List.length theSequence] in Ix, P.
  split; [exact I1|]. split; [exact Ix | exact P].
Qed.

Lemma resume_after_pause_advances_witness :
  let f := this_after
             (stop demoPage (this_after demoFlight)
                (world_after demoFlight)) in
  let w := world_after
             (stop demoPage (this_after demoFlight)
                (world_after demoFlight)) in
  isPlaying f = false /\ autoPlayEnabled f = true /\
  currentPhase f = "cruise" /\
  exists f' w',
    start demoPage f w = (Returned tt, f', w') /\
    currentPhase f' = "descent".
Proof.
  cbv zeta.
  split; [reflexivity|]. split; [reflexivity|]. split; [reflexivity|].
  destruct (resume_after_pause_advances demoPage
              (this_after
                 (stop demoPage (this_after demoFlight)
                    (world_after demoFlight)))
              (world_after
                 (stop demoPage (this_after demoFlight)
                    (world_after demoFlight)))
              eq_refl eq_refl eq_refl)
    as (f' & w' & R & _ & _ & P).
  - vm_compute. intro H. discriminate H.
  - exists f', w'. split; [exact R | exact P].
Defined.

Lemma round_le_of_le v (z : Z) :
  v + 0.5 <= inject_Z z + 0.5 -> inject_Z (Js.round v) <= inject_Z z.
Proof.
  intro H. unfold Js.round.
  rewrite <- Zle_Qle.
  pose proof (Qfloor_le (v + 0.5)) as F.
  assert (L : inject_Z (Qfloor (v + 0.5)) < inject_Z (z + 1)).
  { rewrite inject_Z_plus. change (inject_Z 1) with 1. lra. }
  rewrite <- Zlt_Qlt in L. lia.
Qed.

Lemma round_monotone u v : u <= v -> (Js.round u <= Js.round v)%Z.
Proof.
  intro H. unfold Js.round. apply Qfloor_resp_le. lra.
Qed.

Lemma max0_cases q :
  (q <= 0 -> Js.max 0 q == 0) /\ (0 <= q -> Js.max 0 q == q) /\
  0 <= Js.max 0 q.
Proof.
  unfold Js.max. cmp (Js.leb 0 q); repeat split; intros; lra.
Qed.

(** X22.  The altitude read-out is never negative.  With the ground
    below the top of the canvas (groundLevel > 0) it is 0 whenever the
    airplane is at or below ground level, at most 10000 whenever the
    airplane is on the canvas (y >= 0), and of two simulators with the
    same ground level the one whose airplane is drawn higher (smaller y)
    reads at least as much. *)
Theorem altitude_readout (f g : fields) :
  0 <= altitude f /\
  (0 < groundLevel f ->
   (groundLevel f <= y (airplane f) -> altitude f == 0) /\
   (0 <= y (airplane f) -> altitude f <= 10000) /\
   (groundLevel g == groundLevel f ->
    y (airplane f) <= y (airplane g) -> altitude g <= altitude f)).
Proof.
  split.
  - unfold altitude. apply max0_cases.
  - intro G. split; [|split].
    + intro Y. unfold altitude.
      destruct (max0_cases
                  (inject_Z (Js.round (altitudeFraction f * 10000))))
        as (Z & _ & _).
      apply Z. change 0 with (inject_Z 0).
      apply round_le_of_le. change (inject_Z 0) with 0.
      unfold altitudeFraction.
      assert (1 <= y (airplane f) / groundLevel f)
        by (apply Qle_shift_div_l; lra).
      lra.
    + intro Y. unfold altitude.
      assert (R : inject_Z (Js.round (altitudeFraction f * 10000))
                  <= 10000).
      { change 10000 with (inject_Z 10000) at 2.
        apply round_le_of_le. change (inject_Z 10000) with 10000.
        unfold altitudeFraction.
        assert (0 <= y (airplane f) / groundLevel f)
          by (apply Qle_shift_div_l; lra).
        lra. }
      unfold Js.max.
      cmp (Js.leb 0 (inject_Z (Js.round (altitudeFraction f * 10000))));
        lra.
    + intros E Y. unfold altitude.
      assert (Fr : altitudeFraction g * 10000 <= altitudeFraction f * 10000).
      { unfold altitudeFraction. rewrite E.
        assert (y (airplane f) / groundLevel f
                <= y (airplane g) / groundLevel f).
        { apply Qle_shift_div_l; [exact G|].
          unfold Qdiv. rewrite <- Qmult_assoc.
          rewrite (Qmult_comm (/ groundLevel f)).
          rewrite Qmult_inv_r by lra. lra. }
        lra. }
      pose proof (round_monotone _ _ Fr) as M. rewrite Zle_Qle in M.
      unfold Js.max.
      cmp (Js.leb 0 (inject_Z (Js.round (altitudeFraction g * 10000))));
      cmp (Js.leb 0 (inject_Z (Js.round (altitudeFraction f * 10000))));
        lra.
Qed.

Lemma altitude_readout_witness :
  0 < groundLevel (this_after demoFlight) /\
  0 <= y (airplane (this_after demoFlight)) /\
  altitude (this_after demoFlight) <= 10000.
Proof.
  assert (G : 0 < groundLevel (this_after demoFlight)) by reflexivity.
  assert (Y : 0 <= y (airplane (this_after demoFlight)))
    by (vm_compute; intro H; discriminate H).
  split; [exact G|]. split; [exact Y|].
  apply (altitude_readout (this_after demoFlight) (this_after demoFlight));
    assumption.
Defined.

End PhasesMore.

(** ** The intro preview's timeline *)

Module IntroSpec.
Import Host Intro.










(** [preview] agrees with what the constructor builds on the demo page. *)
Lemma preview_constructed :
  exists f w,
    new "intro-canvas" demoPage boot = (Returned tt, Some f, w) /\
    width f = width preview /\ height f = height preview /\
    time f = time preview /\ forceAlpha f = forceAlpha preview /\
    groundLevel f == groundLevel preview /\
    x (airplane f) == x (airplane preview) /\
    y (airplane f) == y (airplane preview) /\
    rotation (airplane f) = rotation (airplane preview) /\
    onGround (airplane f) = onGround (airplane preview).
Proof.
  eexists. eexists. split; [vm_compute; reflexivity|].
  repeat split; reflexivity.
Qed.


End IntroSpec.
